(** * cgf-secure-url-service: a shallow embedding and its properties

    The service issues signed download URLs for objects of a storage bucket.
    This development embeds the request-serving code of the repository
    (settings resolution, structured logging, the trace middleware, the
    signed-URL endpoint and the exception handlers of [app.main]) as Rocq
    functions, and states the properties of the specification over them.

    Layout: the embedding comes first, one module per source file; the
    properties follow, grouped by component. *)

From Stdlib Require Import ZArith List String Ascii Bool Lia DecimalString.
Import ListNotations.

Open Scope string_scope.
Open Scope Z_scope.

(* ================================================================== *)
(** ** Python values shared by all modules *)
(* ================================================================== *)

Module Py.

(** [str.lower()] on ASCII text (environment names and header names are
    ASCII; other code points are left as they are). *)
Definition lower_ascii (c : ascii) : ascii :=
  let n := nat_of_ascii c in
  if (Nat.leb 65 n && Nat.leb n 90)%bool then ascii_of_nat (n + 32) else c.

Fixpoint lower (s : string) : string :=
  match s with
  | EmptyString => EmptyString
  | String c r => String (lower_ascii c) (lower r)
  end.

(** Truth value of a [str]: the empty string is falsy. *)
Definition truthy (s : string) : bool :=
  match s with EmptyString => false | String _ _ => true end.

(** Truth value of a [str | None]. *)
Definition truthy_opt (o : option string) : bool :=
  match o with None => false | Some s => truthy s end.

(** [str(n)] for an [int]. *)
Definition str_of_int (z : Z) : string := NilZero.string_of_int (Z.to_int z).

(** [str(x)] for a [str | None]. *)
Definition str_of_opt (o : option string) : string :=
  match o with None => "None" | Some s => s end.

(** [str(b)] for a [bool]. *)
Definition str_of_bool (b : bool) : string := if b then "True" else "False".

(** A [dict] with string keys keeps insertion order: assigning to a key
    that is present replaces the value in place, a new key goes last. *)
Definition dict (V : Type) : Type := list (string * V).

Fixpoint dict_get {V} (d : dict V) (k : string) : option V :=
  match d with
  | [] => None
  | (k', v) :: r => if String.eqb k' k then Some v else dict_get r k
  end.

Fixpoint dict_set {V} (d : dict V) (k : string) (v : V) : dict V :=
  match d with
  | [] => [(k, v)]
  | (k', v') :: r =>
      if String.eqb k' k then (k', v) :: r else (k', v') :: dict_set r k v
  end.

Definition dict_mem {V} (d : dict V) (k : string) : bool :=
  match dict_get d k with Some _ => true | None => false end.

(** [d.get(k, default)]. *)
Definition dict_get_default {V} (d : dict V) (k : string) (default : V) : V :=
  match dict_get d k with Some v => v | None => default end.

End Py.

(* ================================================================== *)
(** ** JSON values (response bodies and log entries) *)
(* ================================================================== *)

Module Json.

#[local] Set Warnings "-register-all".

Inductive json : Type :=
| JNull
| JBool (b : bool)
| JNum (n : Z)
| JStr (s : string)
| JArr (items : list json)
| JObj (fields : list (string * json)).

Definition field (j : json) (k : string) : option json :=
  match j with
  | JObj fs => Py.dict_get fs k
  | _ => None
  end.

Definition keys (j : json) : list string :=
  match j with
  | JObj fs => map fst fs
  | _ => []
  end.

(** Every string that occurs as a value anywhere inside a JSON value. *)
Fixpoint strings (j : json) : list string :=
  match j with
  | JStr s => [s]
  | JArr items => flat_map strings items
  | JObj fs => flat_map (fun kv => strings (snd kv)) fs
  | _ => []
  end.

Definition mentions (j : json) (s : string) : bool :=
  existsb (String.eqb s) (strings j).

End Json.

(* ================================================================== *)
(** ** app/core/config.py *)
(* ================================================================== *)

Module Config.

(** The fields of a settings object.  [GCP_PROJECT] is annotated [str] in
    every class, but [BootstrapSettings] declares [None] as its default
    and the endpoint stores a missing project id in the field, hence the
    option. *)
Record Settings : Type := mkSettings {
  LOG_LEVEL : string;
  PROJECT_NAME : string;
  ENVIRONMENT : string;
  API_V1_STR : string;
  DEBUG : bool;
  GCS_BUCKET_NAME : string;
  GCP_PROJECT : option string
}.

Definition set_GCP_PROJECT (s : Settings) (v : option string) : Settings :=
  {| LOG_LEVEL := LOG_LEVEL s;
     PROJECT_NAME := PROJECT_NAME s;
     ENVIRONMENT := ENVIRONMENT s;
     API_V1_STR := API_V1_STR s;
     DEBUG := DEBUG s;
     GCS_BUCKET_NAME := GCS_BUCKET_NAME s;
     GCP_PROJECT := v |}.

(** The settings classes of the module. *)
Inductive settings_class : Type :=
| BootstrapSettings
| LocalSettings
| DevelopmentSettings
| TestSettings
| StagingSettings
| ProductionSettings.

Definition settings_class_eqb (a b : settings_class) : bool :=
  match a, b with
  | BootstrapSettings, BootstrapSettings
  | LocalSettings, LocalSettings
  | DevelopmentSettings, DevelopmentSettings
  | TestSettings, TestSettings
  | StagingSettings, StagingSettings
  | ProductionSettings, ProductionSettings => true
  | _, _ => false
  end.

(** Field defaults of [BaseAppSettings]. *)
Definition BaseAppSettings_defaults (gcp : option string) : Settings :=
  {| LOG_LEVEL := "INFO";
     PROJECT_NAME := "Abacus Signed URL Generator";
     ENVIRONMENT := "local";
     API_V1_STR := "/v1";
     DEBUG := false;
     GCS_BUCKET_NAME := "abacus-claims";
     GCP_PROJECT := gcp |}.

(** The defaults each class declares, the inherited ones included.  These
    are the defaults pydantic records when the class statement runs. *)
Definition declared_defaults (c : settings_class) : Settings :=
  let base := BaseAppSettings_defaults None in
  let profile env gcp lvl dbg bucket :=
    {| LOG_LEVEL := lvl;
       PROJECT_NAME := PROJECT_NAME base;
       ENVIRONMENT := env;
       API_V1_STR := API_V1_STR base;
       DEBUG := dbg;
       GCS_BUCKET_NAME := bucket;
       GCP_PROJECT := Some gcp |} in
  match c with
  | BootstrapSettings => base
  | LocalSettings =>
      profile "local" "grpit-cds-sandpit-dev" "DEBUG" true "abacus-claims"
  | DevelopmentSettings =>
      profile "development" EmptyString "INFO" false "abacus-claims-dev"
  | TestSettings => profile "test" EmptyString "WARNING" false EmptyString
  | StagingSettings => profile "staging" EmptyString "INFO" false EmptyString
  | ProductionSettings => profile "production" EmptyString "WARNING" false EmptyString
  end.

(** [_environment_settings_map.get(name)]. *)
Definition _environment_settings_map (name : string) : option settings_class :=
  Py.dict_get
    [("local", LocalSettings);
     ("development", DevelopmentSettings);
     ("test", TestSettings);
     ("staging", StagingSettings);
     ("production", ProductionSettings)]
    name.

(** The environment names the map knows. *)
Definition recognized_profiles : list string :=
  ["local"; "development"; "test"; "staging"; "production"].

(** [os.environ]: a dict of the process, in the order it iterates. *)
Definition environ : Type := Py.dict string.

(** The dotenv files the two loads can reach: for a path that is there,
    the dict python-dotenv parses from it (values after expansion).  The
    path [.env] stands for the file [load_dotenv()] finds when it is
    given no path, which is the first [.env] on the way up from the
    directory of [config.py]; the paths [.env.<environment>] are the ones
    the code passes itself, relative to the working directory. *)
Definition dotenv_files : Type := string -> option (Py.dict string).

(** [set_as_environment_variables]: a key already in the environment is
    skipped unless [override] is set. *)
Fixpoint set_as_environment_variables
         (values : Py.dict string) (override : bool) (env : environ) : environ :=
  match values with
  | [] => env
  | (k, v) :: r =>
      let env' :=
        if (Py.dict_mem env k && negb override)%bool then env
        else Py.dict_set env k v in
      set_as_environment_variables r override env'
  end.

(** [load_dotenv(dotenv_path=path, override=override)], and
    [load_dotenv()] for the path [.env]; a file that is not there loads
    nothing. *)
Definition load_dotenv
           (fs : dotenv_files) (path : string) (override : bool)
           (env : environ) : environ :=
  match fs path with
  | Some values => set_as_environment_variables values override env
  | None => env
  end.

(** The environment after the two dotenv loads that open both
    [get_bootstrap_settings] and [get_setings]. *)
Definition load_environment (fs : dotenv_files) (env : environ) : environ :=
  let env1 := load_dotenv fs ".env" false env in
  let env_file_path :=
    ".env." ++ Py.lower (Py.dict_get_default env1 "ENVIRONMENT" "local") in
  match fs env_file_path with
  | Some _ => load_dotenv fs env_file_path true env1
  | None => env1
  end.

(** The environment source of pydantic-settings with
    [case_sensitive=False]: variable names are lower-cased into a new
    dict, so of two names that differ in case only the one iterated last
    stays; a field is looked up by its lower-cased name. *)
Fixpoint parse_env_vars (env : environ) : Py.dict string :=
  match env with
  | [] => []
  | (k, v) :: r => (Py.lower k, v) :: parse_env_vars r
  end.

Fixpoint last_value (d : Py.dict string) (k : string) : option string :=
  match d with
  | [] => None
  | (k', v) :: r =>
      match last_value r k with
      | Some v' => Some v'
      | None => if String.eqb k' k then Some v else None
      end
  end.

Definition env_field (env : environ) (field_name : string) : option string :=
  last_value (parse_env_vars env) (Py.lower field_name).

(** The string a [bool] field accepts from the environment, as pydantic's
    lax mode reads it. *)
Definition pydantic_bool (raw : string) : option bool :=
  let s := Py.lower raw in
  if existsb (String.eqb s) ["1"; "on"; "t"; "true"; "y"; "yes"] then Some true
  else if existsb (String.eqb s) ["0"; "off"; "f"; "false"; "n"; "no"] then Some false
  else None.

Section Instantiate.

(** Validation of the one field that is not a string. *)
Variable validate_bool : string -> option bool.

(** [settings_class()]: every field takes the value of its environment
    variable when there is one and its declared default otherwise; a
    value that does not validate raises ([None]).  A settings class
    validates its defaults as well ([validate_default] is set in the
    configuration of [BaseSettings]), so the default [None] that
    [BootstrapSettings] declares for the [str] field [GCP_PROJECT] raises
    when no variable replaces it. *)
Definition instantiate (c : settings_class) (env : environ) : option Settings :=
  let d := declared_defaults c in
  let str_field name default :=
    match env_field env name with Some v => v | None => default end in
  let debug :=
    match env_field env "DEBUG" with
    | Some raw => validate_bool raw
    | None => Some (DEBUG d)
    end in
  let gcp_project :=
    match env_field env "GCP_PROJECT" with
    | Some v => Some v
    | None => GCP_PROJECT d
    end in
  match debug, gcp_project with
  | Some dbg, Some project =>
      Some {| LOG_LEVEL := str_field "LOG_LEVEL" (LOG_LEVEL d);
              PROJECT_NAME := str_field "PROJECT_NAME" (PROJECT_NAME d);
              ENVIRONMENT := str_field "ENVIRONMENT" (ENVIRONMENT d);
              API_V1_STR := str_field "API_V1_STR" (API_V1_STR d);
              DEBUG := dbg;
              GCS_BUCKET_NAME := str_field "GCS_BUCKET_NAME" (GCS_BUCKET_NAME d);
              GCP_PROJECT := Some project |}
  | _, _ => None
  end.

(** The module state: the process environment, the class attribute
    [GCP_PROJECT] of each settings class (pydantic takes the declared
    defaults out of the class namespace, so there is none until one is
    assigned) and the cached instance.  An attribute of the class is read
    through an instance only when the instance has none of that name; an
    instance of a settings class holds every field itself, so reading
    [GCP_PROJECT] on it gives the field of the instance. *)
Record Process : Type := mkProcess {
  os_environ : environ;
  class_GCP_PROJECT : settings_class -> option (option string);
  _settings_instance : option Settings
}.

Definition assign_class_GCP_PROJECT
           (attrs : settings_class -> option (option string))
           (c : settings_class) (v : option string)
  : settings_class -> option (option string) :=
  fun c' => if settings_class_eqb c c' then Some v else attrs c'.

(** What a call at start-up ends in: a settings object, or [sys.exit]. *)
Inductive startup (A : Type) : Type :=
| Loaded (a : A)
| SysExit (message : string).
Arguments Loaded {A} a.
Arguments SysExit {A} message.

(** [get_bootstrap_settings()]: [None] when [BootstrapSettings()] raises
    its [ValidationError], which nothing in the function catches. *)
Definition get_bootstrap_settings
           (fs : dotenv_files) (p : Process) : option Settings * Process :=
  let env := load_environment fs (os_environ p) in
  (instantiate BootstrapSettings env,
   {| os_environ := env;
      class_GCP_PROJECT := class_GCP_PROJECT p;
      _settings_instance := _settings_instance p |}).

Definition current_environment_name (env : environ) : string :=
  Py.lower (Py.dict_get_default env "ENVIRONMENT" "local").

(** The class [get_setings] selects for an environment name. *)
Definition select_settings_class (name : string) : settings_class :=
  match _environment_settings_map name with
  | Some c => c
  | None => LocalSettings
  end.

Definition get_setings
           (fs : dotenv_files) (p : Process) : startup Settings * Process :=
  match _settings_instance p with
  | Some s => (Loaded s, p)
  | None =>
      let env := load_environment fs (os_environ p) in
      let settings_class := select_settings_class (current_environment_name env) in
      let attrs :=
        assign_class_GCP_PROJECT (class_GCP_PROJECT p) settings_class
                                 (Py.dict_get env "GCP_PROJECT") in
      match instantiate settings_class env with
      | Some s =>
          (Loaded s,
           {| os_environ := env;
              class_GCP_PROJECT := attrs;
              _settings_instance := Some s |})
      | None =>
          (SysExit "Failed to load critical application settings.",
           {| os_environ := env;
              class_GCP_PROJECT := attrs;
              _settings_instance := None |})
      end
  end.

End Instantiate.

Arguments Loaded {A} a.
Arguments SysExit {A} message.

(** A process that has loaded nothing yet. *)
Definition fresh_process (env : environ) : Process :=
  {| os_environ := env;
     class_GCP_PROJECT := fun _ => None;
     _settings_instance := None |}.

Definition no_dotenv : dotenv_files := fun _ => None.

End Config.

(* ================================================================== *)
(** ** app/utils/logging_config.py *)
(* ================================================================== *)

Module LoggingConfig.

(** *** The two context variables *)

(** What a [ContextVar] holds in the current context: nothing yet, or a
    value of type [str | None]. *)
Inductive binding : Type :=
| Unset
| Bound (value : option string).

(** [var.get()]; both variables are created with [default=None]. *)
Definition var_get (b : binding) : option string :=
  match b with
  | Unset => None
  | Bound v => v
  end.

(** The token [var.set] hands back remembers the binding it replaced. *)
Definition token : Type := binding.

Record Context : Type := mkContext {
  trace_id_var : binding;
  span_id_var : binding
}.

(** *** [datetime.fromtimestamp] and [isoformat] *)

Record datetime : Type := mkDatetime {
  year : Z; month : Z; day : Z;
  hour : Z; minute : Z; second : Z;
  microsecond : Z
}.

(** Proleptic Gregorian date of a day number counted from 1970-01-01. *)
Definition civil_from_days (days : Z) : Z * Z * Z :=
  let z := days + 719468 in
  let era := z / 146097 in
  let doe := z - era * 146097 in
  let yoe := (doe - doe / 1460 + doe / 36524 - doe / 146096) / 365 in
  let doy := doe - (365 * yoe + yoe / 4 - yoe / 100) in
  let mp := (5 * doy + 2) / 153 in
  let d := doy - (153 * mp + 2) / 5 + 1 in
  let m := if mp <? 10 then mp + 3 else mp - 9 in
  let y := yoe + era * 400 + (if m <=? 2 then 1 else 0) in
  (y, m, d).

(** The broken-down time of [seconds] since the epoch shifted by
    [offset] seconds, with [us] microseconds; [None] where Python raises
    because the year leaves 1..9999. *)
Definition broken_down (seconds offset us : Z) : option datetime :=
  let t := seconds + offset in
  let '(y, m, d) := civil_from_days (t / 86400) in
  let sod := t mod 86400 in
  if ((1 <=? y) && (y <=? 9999))%bool then
    Some {| year := y; month := m; day := d;
            hour := sod / 3600;
            minute := (sod mod 3600) / 60;
            second := sod mod 60;
            microsecond := us |}
  else None.

(** [datetime.fromtimestamp(created)] with no [tz] argument: the naive
    local time of the host.  [created_us] is the float timestamp in
    microseconds (the rounding [fromtimestamp] itself applies), and
    [utcoffset] gives the offset of the host's time zone, in seconds east
    of UTC, at an instant. *)
Definition fromtimestamp (utcoffset : Z -> Z) (created_us : Z) : option datetime :=
  let seconds := created_us / 1000000 in
  broken_down seconds (utcoffset seconds) (created_us mod 1000000).

Definition digit (n : Z) : ascii := ascii_of_nat (48 + Z.to_nat (n mod 10)).

Definition pad2 (n : Z) (rest : string) : string :=
  String (digit (n / 10)) (String (digit n) rest).

Definition pad3 (n : Z) (rest : string) : string :=
  String (digit (n / 100)) (pad2 n rest).

Definition pad4 (n : Z) (rest : string) : string :=
  String (digit (n / 1000)) (pad3 n rest).

(** [dt.isoformat(timespec='milliseconds')] of a naive datetime. *)
Definition isoformat_milliseconds (dt : datetime) : string :=
  pad4 (year dt) ("-" ++ pad2 (month dt) ("-" ++ pad2 (day dt) ("T" ++
  pad2 (hour dt) (":" ++ pad2 (minute dt) (":" ++ pad2 (second dt) ("." ++
  pad3 (microsecond dt / 1000) EmptyString)))))).

(** *** [StructuredLogFormatter] *)

(** The attributes of a [logging.LogRecord] the formatter reads.
    [message] is [record.getMessage()]; [exc_info] and [stack_info] hold
    the text [formatException] and [formatStack] return for them. *)
Record LogRecord : Type := mkLogRecord {
  name : string;
  levelname : string;
  pathname : string;
  lineno : Z;
  funcName : string;
  message : string;
  created_us : Z;
  exc_info : option string;
  stack_info : option string
}.

Record StructuredLogFormatter : Type := mkFormatter {
  project_id : option string
}.

Definition severity_map : Py.dict string :=
  [("CRITICAL", "CRITICAL");
   ("ERROR", "ERROR");
   ("WARNING", "WARNING");
   ("INFO", "INFO");
   ("DEBUG", "DEBUG");
   ("NOTSET", "DEFAULT")].

(** The value of the [timestamp] key. *)
Definition timestamp (utcoffset : Z -> Z) (record : LogRecord) : option string :=
  match fromtimestamp utcoffset (created_us record) with
  | Some dt => Some (isoformat_milliseconds dt ++ "Z")
  | None => None
  end.

(** [StructuredLogFormatter.format]: the dict handed to [json.dumps], or
    [None] when building the timestamp raises. *)
Definition format
           (self : StructuredLogFormatter) (ctx : Context) (utcoffset : Z -> Z)
           (record : LogRecord) : option Json.json :=
  let trace_id := var_get (trace_id_var ctx) in
  let span_id := var_get (span_id_var ctx) in
  let severity := Py.dict_get_default severity_map (levelname record) "DEFAULT" in
  match timestamp utcoffset record with
  | None => None
  | Some ts =>
      let log_entry :=
        [("severity", Json.JStr severity);
         ("message", Json.JStr (message record));
         ("timestamp", Json.JStr ts);
         ("logging.googleapis.com/sourceLocation",
          Json.JObj [("file", Json.JStr (pathname record));
                     ("line", Json.JNum (lineno record));
                     ("function", Json.JStr (funcName record))]);
         ("logging.googleapis.com/labels",
          Json.JObj [("python_logger", Json.JStr (name record))])] in
      let log_entry :=
        match trace_id, project_id self with
        | Some t, Some p =>
            if (Py.truthy t && Py.truthy p)%bool then
              Py.dict_set log_entry "logging.googleapis.com/trace"
                          (Json.JStr ("projects/" ++ p ++ "/traces/" ++ t))
            else log_entry
        | _, _ => log_entry
        end in
      let log_entry :=
        match span_id with
        | Some s =>
            if Py.truthy s then
              Py.dict_set log_entry "logging.googleapis.com/spanId" (Json.JStr s)
            else log_entry
        | None => log_entry
        end in
      let log_entry :=
        match exc_info record with
        | Some text => Py.dict_set log_entry "exception" (Json.JStr text)
        | None => log_entry
        end in
      let log_entry :=
        match stack_info record with
        | Some text =>
            if Py.truthy text then
              Py.dict_set log_entry "stack_trace" (Json.JStr text)
            else log_entry
        | None => log_entry
        end in
      Some (Json.JObj log_entry)
  end.

(** The timestamp the specification asks for: the creation time in UTC,
    ISO-8601 with milliseconds and a [Z] suffix. *)
Definition spec_utc_timestamp (created_us : Z) : option string :=
  match broken_down (created_us / 1000000) 0 (created_us mod 1000000) with
  | Some dt => Some (isoformat_milliseconds dt ++ "Z")
  | None => None
  end.

End LoggingConfig.

(* ================================================================== *)
(** ** Request-serving state, exceptions and the monad of handlers *)
(* ================================================================== *)

Module Runtime.

(** The exceptions that travel through the service.  [HTTPException] is
    FastAPI's; [DefaultCredentialsError] is google-auth's; every other
    exception class is kept by its class name and its [str()]. *)
Inductive exn : Type :=
| HTTPException (status_code : Z) (detail : string)
| DefaultCredentialsError (message : string)
| PyException (type_name : string) (message : string).

(** [type(exc).__name__]. *)
Definition exn_type_name (e : exn) : string :=
  match e with
  | HTTPException _ _ => "HTTPException"
  | DefaultCredentialsError _ => "DefaultCredentialsError"
  | PyException t _ => t
  end.

(** [str(exc)]. *)
Definition exn_str (e : exn) : string :=
  match e with
  | HTTPException s d => Py.str_of_int s ++ ": " ++ d
  | DefaultCredentialsError m => m
  | PyException _ m => m
  end.

Definition is_HTTPException (e : exn) : bool :=
  match e with HTTPException _ _ => true | _ => false end.

Inductive level : Type := DEBUG | INFO | WARNING | ERROR | CRITICAL.

(** The signing call as the endpoint issues it. *)
Record SignRequest : Type := mkSignRequest {
  version : string;
  expiration_seconds : Z;
  method : string;
  sign_service_account_email : string;
  access_token : option string;
  response_disposition : string
}.

(** What a request leaves behind, in the order it happened: log calls and
    calls into google-auth and the storage client. *)
Inductive event : Type :=
| Log (lvl : level) (message : string) (exc_info : option exn)
      (extra : list (string * Json.json))
| AuthDefault (scopes : list string)
| CredentialsRefresh
| BlobExists (bucket filename : string)
| BlobGenerateSignedUrl (bucket filename : string) (req : SignRequest).

Definition is_refresh (e : event) : bool :=
  match e with CredentialsRefresh => true | _ => false end.

Definition is_exists (e : event) : bool :=
  match e with BlobExists _ _ => true | _ => false end.

Definition is_signing (e : event) : bool :=
  match e with BlobGenerateSignedUrl _ _ _ => true | _ => false end.

Definition is_cloud_call (e : event) : bool :=
  match e with Log _ _ _ _ => false | _ => true end.

Definition count (p : event -> bool) (l : list event) : nat :=
  List.length (filter p l).

(** The state a request runs in: the settings singleton of
    [app.core.app_config] (one object, shared by every module that imports
    it), the context variables, the reading of [time.perf_counter] in
    nanoseconds, and the journal of events. *)
Record State : Type := mkState {
  settings : Config.Settings;
  context : LoggingConfig.Context;
  clock : Z;
  journal : list event
}.

Inductive outcome (A : Type) : Type :=
| Returns (a : A)
| Raises (e : exn).
Arguments Returns {A} a.
Arguments Raises {A} e.

Definition M (A : Type) : Type := State -> outcome A * State.

Definition ret {A} (a : A) : M A := fun s => (Returns a, s).

Definition bind {A B} (m : M A) (k : A -> M B) : M B :=
  fun s =>
    match m s with
    | (Returns a, s') => k a s'
    | (Raises e, s') => (Raises e, s')
    end.

Definition raise {A} (e : exn) : M A := fun s => (Raises e, s).

(** [try: m  except Exception as e: handler(e)]; what the handler raises
    leaves the statement. *)
Definition try_except {A} (m : M A) (handler : exn -> M A) : M A :=
  fun s =>
    match m s with
    | (Returns a, s') => (Returns a, s')
    | (Raises e, s') => handler e s'
    end.

Definition emit (e : event) : M unit :=
  fun s =>
    (Returns tt,
     {| settings := settings s; context := context s; clock := clock s;
        journal := journal s ++ [e] |}).

Definition get_settings : M Config.Settings := fun s => (Returns (settings s), s).

(** [settings.GCP_PROJECT = v]: an assignment to the shared object. *)
Definition assign_GCP_PROJECT (v : option string) : M unit :=
  fun s =>
    (Returns tt,
     {| settings := Config.set_GCP_PROJECT (settings s) v;
        context := context s; clock := clock s;
        journal := journal s |}).

Definition get_context : M LoggingConfig.Context :=
  fun s => (Returns (context s), s).

Definition put_context (c : LoggingConfig.Context) : M unit :=
  fun s =>
    (Returns tt,
     {| settings := settings s; context := c; clock := clock s;
        journal := journal s |}).

(** [time.perf_counter()]. *)
Definition perf_counter : M Z := fun s => (Returns (clock s), s).

(** [logger.info], [logger.warning], [logger.error]. *)
Definition log (lvl : level) (message : string) : M unit :=
  emit (Log lvl message None []).

(** [logger.exception(message)] inside an [except] clause for [e], and
    [logger.error(message, exc_info=True)]. *)
Definition log_exception (message : string) (e : exn) : M unit :=
  emit (Log ERROR message (Some e) []).

End Runtime.

Declare Scope py_scope.
Delimit Scope py_scope with py.
Notation "x <- c1 ;; c2" := (Runtime.bind c1 (fun x => c2))
  (at level 61, c1 at next level, right associativity) : py_scope.
Notation "c1 ;; c2" := (Runtime.bind c1 (fun _ => c2))
  (at level 61, right associativity) : py_scope.

(* ================================================================== *)
(** ** Requests and responses (Starlette) *)
(* ================================================================== *)

Module Http.

(** The parts of a request the service reads: method, path and base URL,
    the two query parameters of the signed-URL route ([expires_in] as the
    integer FastAPI parsed), and the two attributes the middleware stores
    in [request.state]. *)
Record Request : Type := mkRequest {
  http_method : string;
  url_path : string;
  base_url : string;
  query_filename : option string;
  query_expires_in : option Z;
  state_trace_id : option string;
  state_span_id : option string
}.

(** [MutableHeaders]: a list of pairs whose names are kept lower-cased. *)
Definition Headers : Type := list (string * string).

Record Response : Type := mkResponse {
  status_code : Z;
  headers : Headers;
  body : Json.json
}.

Fixpoint remove_header (k : string) (h : Headers) : Headers :=
  match h with
  | [] => []
  | (k', v) :: r =>
      if String.eqb k' k then remove_header k r else (k', v) :: remove_header k r
  end.

Fixpoint replace_header (k v : string) (h : Headers) : Headers :=
  match h with
  | [] => [(k, v)]
  | (k', v') :: r =>
      if String.eqb k' k then (k, v) :: remove_header k r
      else (k', v') :: replace_header k v r
  end.

(** [headers[key] = value]: the first entry of that name is overwritten,
    later duplicates are dropped, a new name is appended. *)
Definition headers_set (h : Headers) (key value : string) : Headers :=
  replace_header (Py.lower key) value h.

(** [headers.get(key)]. *)
Definition headers_get (h : Headers) (key : string) : option string :=
  Py.dict_get h (Py.lower key).

Definition set_header (r : Response) (key value : string) : Response :=
  {| status_code := status_code r;
     headers := headers_set (headers r) key value;
     body := body r |}.

(** [JSONResponse(status_code=..., content=...)]; of the headers the
    class writes itself only the content type is kept. *)
Definition JSONResponse (status : Z) (content : Json.json) : Response :=
  {| status_code := status;
     headers := [("content-type", "application/json")];
     body := content |}.

Definition HTTP_404_NOT_FOUND : Z := 404.
Definition HTTP_422_UNPROCESSABLE_ENTITY : Z := 422.
Definition HTTP_500_INTERNAL_SERVER_ERROR : Z := 500.

Definition is_client_error (status : Z) : bool :=
  ((400 <=? status) && (status <=? 499))%bool.

End Http.

(* ================================================================== *)
(** ** app/core/gcs_client.py and app/api/endpoints/gcs_url_endpoint.py *)
(* ================================================================== *)

Module GcsUrlEndpoint.

Import Runtime.
Local Open Scope py_scope.

(** *** The collaborators: google-auth and the storage client *)

Inductive credentials_class : Type :=
| ComputeEngineCredentials
| OtherCredentials (qualified_name : string).

(** A credentials object: its class, [valid], [token], and the attribute
    [service_account_email] when the class has one. *)
Record Credentials : Type := mkCredentials {
  class_of : credentials_class;
  valid : bool;
  token : option string;
  service_account_email : option string
}.

(** The exceptions a library call can end in. *)
Inductive library_error : Type :=
| CredentialsNotFound (message : string)
| LibraryFailure (type_name : string) (message : string).

Definition to_exn (e : library_error) : exn :=
  match e with
  | CredentialsNotFound m => DefaultCredentialsError m
  | LibraryFailure t m => PyException t m
  end.

Inductive result (A : Type) : Type :=
| Ok (a : A)
| Err (e : library_error).
Arguments Ok {A} a.
Arguments Err {A} e.

(** How the outside answers during one request:
    [google.auth.default(scopes)], [credentials.refresh(request)] (the
    object after the call), whether [GCSClient._client] was initialised
    at import, [blob.exists()] and [blob.generate_signed_url(...)]. *)
Record Cloud : Type := mkCloud {
  auth_default : list string -> result (Credentials * option string);
  credentials_refresh : Credentials -> result Credentials;
  client_initialized : bool;
  blob_exists : string -> string -> result bool;
  blob_generate_signed_url : string -> string -> SignRequest -> result string
}.

Definition lift {A} (r : result A) : M A :=
  match r with
  | Ok a => ret a
  | Err e => raise (to_exn e)
  end.

Definition type_repr (c : Credentials) : string :=
  "<class '" ++
  match class_of c with
  | ComputeEngineCredentials => "google.auth.compute_engine.credentials.Credentials"
  | OtherCredentials n => n
  end ++ "'>".

Definition is_ComputeEngineCredentials (c : Credentials) : bool :=
  match class_of c with
  | ComputeEngineCredentials => true
  | OtherCredentials _ => false
  end.

(** The [detail] strings of the endpoint's [HTTPException]s. *)
Definition detail_invalid_credentials : string :=
  "Invalid Google Cloud credentials. Please check your Cloud Run service account configuration and permissions.".
Definition detail_no_signing_identity : string :=
  "Could not determine the service account identity for URL signing. Check Cloud Run service account configuration.".
Definition detail_not_found : string :=
  "File not found in Google Cloud Storage.".
Definition detail_authentication_failed : string :=
  "Authentication to Google Cloud failed. Please check your Cloud Run service account permissions.".
Definition detail_internal_error : string :=
  "Internal server error: Could not generate signed URL. Please check server logs.".

Definition endpoint_details : list string :=
  [detail_invalid_credentials; detail_no_signing_identity; detail_not_found;
   detail_authentication_failed; detail_internal_error].

(** The scope list of [generate_signed_url]. *)
Definition scopes : list string :=
  ["https://www.googleapis.com/auth/cloud-platform"].

Section Endpoint.

Variable cloud : Cloud.

(** [GCSClient.client]. *)
Definition gcs_service_client : M unit :=
  if client_initialized cloud then ret tt
  else
    log ERROR "Attempted to access uninitialized GCS client." ;;
    raise (PyException "RuntimeError"
                       "Google Cloud Storage client is not initialized.").

(** [GCSClient.bucket_name]. *)
Definition gcs_service_bucket_name : M string :=
  s <- get_settings ;; ret (Config.GCS_BUCKET_NAME s).

(** The [try] block of [generate_signed_url]. *)
Definition generate_signed_url_body (filename : string) (expires_in : Z)
  : M Json.json :=
  emit (AuthDefault scopes) ;;
  r <- lift (auth_default cloud scopes) ;;
  let credentials := fst r in
  assign_GCP_PROJECT (snd r) ;;
  log INFO ("Credentials object type: " ++ type_repr credentials) ;;
  let sa_email_from_credentials :=
    match service_account_email credentials with
    | Some e => e
    | None => "UNKNOWN_SERVICE_ACCOUNT_EMAIL"
    end in
  log INFO ("Credentials service_account_email (from object): "
            ++ sa_email_from_credentials) ;;
  log INFO ("Credentials token: "
            ++ if Py.truthy_opt (token credentials) then "exists"
               else "does not exist") ;;
  s <- get_settings ;;
  log INFO ("Project ID from default(): "
            ++ Py.str_of_opt (Config.GCP_PROJECT s)) ;;
  credentials <-
    (if negb (valid credentials) then
       log ERROR "Invalid Google Cloud credentials detected. Attempting refresh." ;;
       emit CredentialsRefresh ;;
       refreshed <- lift (credentials_refresh cloud credentials) ;;
       if negb (valid refreshed) then
         log ERROR "Credentials remain invalid after refresh." ;;
         raise (HTTPException Http.HTTP_500_INTERNAL_SERVER_ERROR
                              detail_invalid_credentials)
       else ret refreshed
     else ret credentials) ;;
  let signing_service_account_email :=
    match service_account_email credentials with
    | Some e =>
        if (is_ComputeEngineCredentials credentials && Py.truthy e)%bool
        then Some e else None
    | None => None
    end in
  match signing_service_account_email with
  | None =>
      log ERROR "Could not determine service account email for signing the URL." ;;
      raise (HTTPException Http.HTTP_500_INTERNAL_SERVER_ERROR
                           detail_no_signing_identity)
  | Some email =>
      gcs_service_client ;;
      bucket <- gcs_service_bucket_name ;;
      emit (BlobExists bucket filename) ;;
      present <- lift (blob_exists cloud bucket filename) ;;
      if negb present then
        log WARNING ("File not found in GCS for signed URL generation: '"
                     ++ filename ++ "'.") ;;
        raise (HTTPException Http.HTTP_404_NOT_FOUND detail_not_found)
      else
        let req :=
          {| version := "v4";
             expiration_seconds := expires_in;
             method := "GET";
             sign_service_account_email := email;
             access_token := token credentials;
             response_disposition := "attachment; filename=" ++ filename |} in
        emit (BlobGenerateSignedUrl bucket filename req) ;;
        url <- lift (blob_generate_signed_url cloud bucket filename req) ;;
        log INFO ("Successfully generated signed URL for filename: '"
                  ++ filename ++ "'.") ;;
        ret (Json.JObj [("signed_url", Json.JStr url)])
  end.

(** The two [except] clauses of [generate_signed_url]. *)
Definition generate_signed_url_except (filename : string) (e : exn)
  : M Json.json :=
  match e with
  | DefaultCredentialsError _ =>
      log_exception ("Google Cloud authentication failed for '" ++ filename
                     ++ "': " ++ exn_str e) e ;;
      raise (HTTPException Http.HTTP_500_INTERNAL_SERVER_ERROR
                           detail_authentication_failed)
  | _ =>
      log_exception
        ("An unexpected error occurred during signed URL generation for '"
         ++ filename ++ "': " ++ exn_str e) e ;;
      if is_HTTPException e then raise e
      else raise (HTTPException Http.HTTP_500_INTERNAL_SERVER_ERROR
                                detail_internal_error)
  end.

Definition generate_signed_url (filename : string) (expires_in : Z)
  : M Json.json :=
  log INFO ("Received request to generate signed URL for filename: '"
            ++ filename ++ "' (expiry: " ++ Py.str_of_int expires_in ++ "s).") ;;
  try_except (generate_signed_url_body filename expires_in)
             (generate_signed_url_except filename).

(** *** The parameter declarations of the route *)

(** An entry of the [detail] list of a 422 response, as FastAPI renders
    a pydantic error: type, location, message and the input that was
    rejected, with the bound that was violated where there is one. *)
Definition validation_error
           (type : string) (parameter : string) (msg : string)
           (input : Json.json) (ctx : list (string * Json.json)) : Json.json :=
  Json.JObj
    ([("type", Json.JStr type);
      ("loc", Json.JArr [Json.JStr "query"; Json.JStr parameter]);
      ("msg", Json.JStr msg);
      ("input", input)]
     ++ match ctx with
        | [] => []
        | _ => [("ctx", Json.JObj ctx)]
        end).

(** [filename: str = Query(...)]: required. *)
Definition validate_filename (q : option string) : string + Json.json :=
  match q with
  | Some f => inl f
  | None =>
      inr (validation_error "missing" "filename" "Field required" Json.JNull [])
  end.

(** [expires_in: int = Query(300, ge=20, le=3600)].  The rejected input
    is reported as the text of the parameter; the request holds the
    integer parsed from it, so the entry has the decimal numeral of that
    integer, which is the text unless it was written with a sign, leading
    zeros or surrounding blanks. *)
Definition validate_expires_in (q : option Z) : Z + Json.json :=
  match q with
  | None => inl 300
  | Some v =>
      if negb (20 <=? v) then
        inr (validation_error
               "greater_than_equal" "expires_in"
               "Input should be greater than or equal to 20"
               (Json.JStr (Py.str_of_int v)) [("ge", Json.JNum 20)])
      else if negb (v <=? 3600) then
        inr (validation_error
               "less_than_equal" "expires_in"
               "Input should be less than or equal to 3600"
               (Json.JStr (Py.str_of_int v)) [("le", Json.JNum 3600)])
      else inl v
  end.

Definition validation_errors {A} (r : A + Json.json) : list Json.json :=
  match r with inl _ => [] | inr e => [e] end.

(** The route [GET <prefix>/url/]: FastAPI validates the query against
    the declarations and answers 422 itself when it fails; only a valid
    query reaches the function. *)
Definition route (request : Http.Request) : M Http.Response :=
  match validate_filename (Http.query_filename request),
        validate_expires_in (Http.query_expires_in request) with
  | inl filename, inl expires_in =>
      content <- generate_signed_url filename expires_in ;;
      ret (Http.JSONResponse 200 content)
  | f, x =>
      ret (Http.JSONResponse Http.HTTP_422_UNPROCESSABLE_ENTITY
             (Json.JObj [("detail",
                          Json.JArr (validation_errors f ++ validation_errors x))]))
  end.

End Endpoint.

End GcsUrlEndpoint.

(* ================================================================== *)
(** ** app/middleware/trace_middleware.py *)
(* ================================================================== *)

Module TraceMiddleware.

Import Runtime.
Local Open Scope py_scope.

(** What [uuid.uuid4()] and [os.urandom(8)] draw for one request. *)
Record Fresh : Type := mkFresh {
  uuid4 : string;
  urandom : list Byte.byte
}.

Definition hex_digit (n : N) : ascii :=
  if (n <? 10)%N then ascii_of_N (48 + n) else ascii_of_N (87 + n).

(** [binascii.hexlify(bytes).decode('ascii')]. *)
Fixpoint hexlify (bs : list Byte.byte) : string :=
  match bs with
  | [] => EmptyString
  | b :: r =>
      let n := Byte.to_N b in
      String (hex_digit (n / 16)) (String (hex_digit (n mod 16)) (hexlify r))
  end.

(** Nearest multiple of [d], ties to the even one. *)
Definition round_half_even (n d : Z) : Z :=
  let q := n / d in
  let r := n mod d in
  if 2 * r <? d then q
  else if d <? 2 * r then q + 1
  else if Z.even q then q else q + 1.

(** [f"{process_time:.4f}"] for a duration in nanoseconds, read as an
    exact decimal number of seconds.  The code formats the float that the
    difference of two float readings gives; where the exact duration lies
    half way between two multiples of 100 microseconds that float can lie
    on either side, and the last digit the code prints can then differ by
    one from the one given here. *)
Definition format_4f (ns : Z) : string :=
  let t := round_half_even (Z.abs ns) 100000 in
  (if ns <? 0 then "-" else EmptyString) ++
  Py.str_of_int (t / 10000) ++ "." ++ LoggingConfig.pad4 (t mod 10000) EmptyString.

(** [trace_id_var.set(value)] and [span_id_var.set(value)]. *)
Definition trace_id_var_set (value : string) : M LoggingConfig.token :=
  c <- get_context ;;
  put_context {| LoggingConfig.trace_id_var := LoggingConfig.Bound (Some value);
                 LoggingConfig.span_id_var := LoggingConfig.span_id_var c |} ;;
  ret (LoggingConfig.trace_id_var c).

Definition span_id_var_set (value : string) : M LoggingConfig.token :=
  c <- get_context ;;
  put_context {| LoggingConfig.trace_id_var := LoggingConfig.trace_id_var c;
                 LoggingConfig.span_id_var := LoggingConfig.Bound (Some value) |} ;;
  ret (LoggingConfig.span_id_var c).

(** [trace_id_var.reset(token)] and [span_id_var.reset(token)]. *)
Definition trace_id_var_reset (t : LoggingConfig.token) : M unit :=
  c <- get_context ;;
  put_context {| LoggingConfig.trace_id_var := t;
                 LoggingConfig.span_id_var := LoggingConfig.span_id_var c |}.

Definition span_id_var_reset (t : LoggingConfig.token) : M unit :=
  c <- get_context ;;
  put_context {| LoggingConfig.trace_id_var := LoggingConfig.trace_id_var c;
                 LoggingConfig.span_id_var := t |}.

Definition with_state (request : Http.Request) (trace_id span_id : string)
  : Http.Request :=
  {| Http.http_method := Http.http_method request;
     Http.url_path := Http.url_path request;
     Http.base_url := Http.base_url request;
     Http.query_filename := Http.query_filename request;
     Http.query_expires_in := Http.query_expires_in request;
     Http.state_trace_id := Some trace_id;
     Http.state_span_id := Some span_id |}.

(** The state in which [dispatch] calls [call_next]: both variables set,
    the two opening log lines written. *)
Definition entered (fresh : Fresh) (request : Http.Request) (st : State) : State :=
  {| settings := settings st;
     context :=
       {| LoggingConfig.trace_id_var := LoggingConfig.Bound (Some (uuid4 fresh));
          LoggingConfig.span_id_var :=
            LoggingConfig.Bound (Some (hexlify (urandom fresh))) |};
     clock := clock st;
     journal :=
       (journal st
        ++ [Log INFO ("Request started: " ++ Http.http_method request ++ " "
                      ++ Http.url_path request) None []])
        ++ [Log INFO ("URL to be processed: " ++ Http.url_path request
                      ++ " and base path: " ++ Http.base_url request) None []] |}.

(** [TraceMiddleware.dispatch]. *)
Definition dispatch
           (fresh : Fresh) (request : Http.Request)
           (call_next : Http.Request -> M Http.Response) : M Http.Response :=
  let trace_id := uuid4 fresh in
  let span_id := hexlify (urandom fresh) in
  let request := with_state request trace_id span_id in
  trace_token <- trace_id_var_set trace_id ;;
  span_token <- span_id_var_set span_id ;;
  start_time <- perf_counter ;;
  log INFO ("Request started: " ++ Http.http_method request ++ " "
            ++ Http.url_path request) ;;
  response <-
    try_except
      (log INFO ("URL to be processed: " ++ Http.url_path request
                 ++ " and base path: " ++ Http.base_url request) ;;
       call_next request)
      (fun e =>
         now <- perf_counter ;;
         let process_time := now - start_time in
         log_exception ("Exception during request processing: " ++ exn_str e
                        ++ " (" ++ format_4f process_time ++ "s)") e ;;
         raise e) ;;
  now <- perf_counter ;;
  let process_time := now - start_time in
  let response := Http.set_header response "X-Process-Time" (format_4f process_time) in
  let response := Http.set_header response "X-Trace-ID" trace_id in
  let response := Http.set_header response "X-Span-ID" span_id in
  log INFO ("Request finished: Status " ++ Py.str_of_int (Http.status_code response)
            ++ " (" ++ format_4f process_time ++ "s)") ;;
  trace_id_var_reset trace_token ;;
  span_id_var_reset span_token ;;
  ret response.

End TraceMiddleware.

(* ================================================================== *)
(** ** app/models/error_model.py and app/main.py *)
(* ================================================================== *)

Module Main.

Import Runtime.
Local Open Scope py_scope.

(** [ErrorResponse(code=..., message=..., details=...).model_dump()]. *)
Definition ErrorResponse
           (code message : string) (details : option (list (string * Json.json)))
  : Json.json :=
  Json.JObj [("code", Json.JStr code);
             ("message", Json.JStr message);
             ("details", match details with
                         | Some d => Json.JObj d
                         | None => Json.JNull
                         end)].

(** The handler registered for [HTTPException].  Every [detail] this
    service raises is a string, so the content is the two-key dict. *)
Definition http_exception_handler
           (request : Http.Request) (status_code : Z) (detail : string)
  : M Http.Response :=
  emit (Log ERROR
            ("HTTPException caught for path '" ++ Http.url_path request
             ++ "': Status " ++ Py.str_of_int status_code
             ++ ", Detail: " ++ detail)
            None
            [("detail", Json.JStr detail);
             ("status_code", Json.JNum status_code);
             ("request_path", Json.JStr (Http.url_path request))]) ;;
  ret (Http.JSONResponse status_code
         (Json.JObj [("code", Json.JStr "HTTP_ERROR");
                     ("message", Json.JStr detail)])).

Definition unexpected_error_message : string :=
  "An unexpected server error occurred. Please try again later.".

(** The handler registered for [Exception]. *)
Definition generic_exception_handler (request : Http.Request) (exc : exn)
  : M Http.Response :=
  emit (Log ERROR
            ("Unhandled exception caught for path '" ++ Http.url_path request
             ++ "': " ++ exn_str exc)
            (Some exc)
            [("error_type", Json.JStr (exn_type_name exc));
             ("request_path", Json.JStr (Http.url_path request))]) ;;
  ret (Http.JSONResponse Http.HTTP_500_INTERNAL_SERVER_ERROR
         (ErrorResponse "UNEXPECTED_ERROR" unexpected_error_message
            (Some [("error_type", Json.JStr (exn_type_name exc));
                   ("message", Json.JStr (exn_str exc));
                   ("request_path", Json.JStr (Http.url_path request))]))).

(** The middleware stack Starlette builds for the application: the
    handler for [Exception] sits in the outermost [ServerErrorMiddleware],
    the user middleware comes next, and the handlers for the other
    exception classes sit in the innermost [ExceptionMiddleware], next to
    the router. *)
Definition ExceptionMiddleware
           (inner : Http.Request -> M Http.Response) (request : Http.Request)
  : M Http.Response :=
  try_except (inner request)
             (fun e =>
                match e with
                | HTTPException status_code detail =>
                    http_exception_handler request status_code detail
                | _ => raise e
                end).

Definition ServerErrorMiddleware
           (inner : Http.Request -> M Http.Response) (request : Http.Request)
  : M Http.Response :=
  try_except (inner request) (generic_exception_handler request).

(** [app] around a routed endpoint. *)
Definition app
           (fresh : TraceMiddleware.Fresh)
           (endpoint : Http.Request -> M Http.Response)
  : Http.Request -> M Http.Response :=
  ServerErrorMiddleware
    (fun request =>
       TraceMiddleware.dispatch fresh request (ExceptionMiddleware endpoint)).

(** The service on the signed-URL route. *)
Definition signed_url_service
           (cloud : GcsUrlEndpoint.Cloud) (fresh : TraceMiddleware.Fresh)
  : Http.Request -> M Http.Response :=
  app fresh (GcsUrlEndpoint.route cloud).

End Main.

(* ================================================================== *)
(** ** Concrete runs used as examples *)
(* ================================================================== *)

Module Scenario.

Import Runtime.

Definition compute_credentials : GcsUrlEndpoint.Credentials :=
  {| GcsUrlEndpoint.class_of := GcsUrlEndpoint.ComputeEngineCredentials;
     GcsUrlEndpoint.valid := true;
     GcsUrlEndpoint.token := Some "ya29.token";
     GcsUrlEndpoint.service_account_email := Some "signer@demo.iam.gserviceaccount.com" |}.

Definition stale_credentials : GcsUrlEndpoint.Credentials :=
  {| GcsUrlEndpoint.class_of := GcsUrlEndpoint.ComputeEngineCredentials;
     GcsUrlEndpoint.valid := false;
     GcsUrlEndpoint.token := None;
     GcsUrlEndpoint.service_account_email := Some "signer@demo.iam.gserviceaccount.com" |}.

(** A bucket that holds [report.pdf] only; credentials are valid and the
    discovered project is [demo-project]. *)
Definition healthy_cloud : GcsUrlEndpoint.Cloud :=
  {| GcsUrlEndpoint.auth_default := fun _ =>
       GcsUrlEndpoint.Ok (compute_credentials, Some "demo-project");
     GcsUrlEndpoint.credentials_refresh := fun c => GcsUrlEndpoint.Ok c;
     GcsUrlEndpoint.client_initialized := true;
     GcsUrlEndpoint.blob_exists := fun _ filename =>
       GcsUrlEndpoint.Ok (String.eqb filename "report.pdf");
     GcsUrlEndpoint.blob_generate_signed_url := fun bucket filename _ =>
       GcsUrlEndpoint.Ok ("https://storage.googleapis.com/" ++ bucket ++ "/"
                          ++ filename ++ "?X-Goog-Signature=00") |}.

(** Credentials that stay invalid when refreshed. *)
Definition expired_cloud : GcsUrlEndpoint.Cloud :=
  {| GcsUrlEndpoint.auth_default := fun _ =>
       GcsUrlEndpoint.Ok (stale_credentials, Some "demo-project");
     GcsUrlEndpoint.credentials_refresh := fun c => GcsUrlEndpoint.Ok c;
     GcsUrlEndpoint.client_initialized := true;
     GcsUrlEndpoint.blob_exists := fun _ _ => GcsUrlEndpoint.Ok true;
     GcsUrlEndpoint.blob_generate_signed_url := fun _ _ _ =>
       GcsUrlEndpoint.Ok "https://storage.googleapis.com/signed" |}.

(** A worker between requests: local settings, no identifier bound. *)
Definition idle : State :=
  {| settings := Config.declared_defaults Config.LocalSettings;
     context := {| LoggingConfig.trace_id_var := LoggingConfig.Unset;
                   LoggingConfig.span_id_var := LoggingConfig.Unset |};
     clock := 0;
     journal := [] |}.

Definition get_url (filename : option string) (expires_in : option Z)
  : Http.Request :=
  {| Http.http_method := "GET";
     Http.url_path := "/v1/url/";
     Http.base_url := "http://testserver/";
     Http.query_filename := filename;
     Http.query_expires_in := expires_in;
     Http.state_trace_id := None;
     Http.state_span_id := None |}.

Definition fresh : TraceMiddleware.Fresh :=
  {| TraceMiddleware.uuid4 := "0f8fad5b-d9cb-469f-a165-70867728950e";
     TraceMiddleware.urandom :=
       [Byte.x00; Byte.x1f; Byte.xab; Byte.xff;
        Byte.x10; Byte.x02; Byte.x03; Byte.x9a] |}.

Definition boom : exn := PyException "ValueError" "secret-dsn-42".

(** A handler chain that fails with an exception no handler below the
    trace middleware converts. *)
Definition failing_endpoint : Http.Request -> M Http.Response :=
  fun _ => raise boom.

(** A log record created at the epoch, on a host one hour east of UTC. *)
Definition epoch_record : LoggingConfig.LogRecord :=
  {| LoggingConfig.name := "root";
     LoggingConfig.levelname := "INFO";
     LoggingConfig.pathname := "/app/app/main.py";
     LoggingConfig.lineno := 22;
     LoggingConfig.funcName := "lifespan";
     LoggingConfig.message := "Lifespan: Startup complete.";
     LoggingConfig.created_us := 0;
     LoggingConfig.exc_info := None;
     LoggingConfig.stack_info := None |}.

Definition one_hour_east : Z -> Z := fun _ => 3600.

Definition formatter : LoggingConfig.StructuredLogFormatter :=
  {| LoggingConfig.project_id := Some "demo-project" |}.

End Scenario.

(* ================================================================== *)
(** ** app/utils/logging_config.py: [setup_logging] and [get_logger] *)
(* ================================================================== *)

Module LoggingSetup.

(** [str.upper()] on ASCII text: the letters [a] to [z] are the only
    characters changed.  Python also maps letters outside ASCII (the
    dotless i, the long s) to ASCII capitals; a level name written with
    one of those is not covered. *)
Definition upper_ascii (c : ascii) : ascii :=
  let n := nat_of_ascii c in
  if (Nat.leb 97 n && Nat.leb n 122)%bool then ascii_of_nat (n - 32) else c.

Fixpoint upper (s : string) : string :=
  match s with
  | EmptyString => EmptyString
  | String c r => String (upper_ascii c) (upper r)
  end.

Definition CRITICAL : Z := 50.
Definition ERROR : Z := 40.
Definition WARNING : Z := 30.
Definition INFO : Z := 20.
Definition DEBUG : Z := 10.
Definition NOTSET : Z := 0.

(** [getattr(logging, name, None)] where the result is an [int]: the
    level constants of the [logging] module. *)
Definition logging_int_attribute (name : string) : option Z :=
  Py.dict_get
    [("CRITICAL", CRITICAL); ("FATAL", CRITICAL); ("ERROR", ERROR);
     ("WARNING", WARNING); ("WARN", WARNING); ("INFO", INFO);
     ("DEBUG", DEBUG); ("NOTSET", NOTSET)]
    name.

(** A handler object: its identity, the stream it writes to and the
    formatter set on it. *)
Record Handler : Type := mkHandler {
  handler_id : nat;
  handler_stream : string;
  handler_formatter : option LoggingConfig.StructuredLogFormatter
}.

(** The configuration of the [logging] module: level and handlers of the
    root logger, the levels set on named loggers, and the identity the next
    handler object gets.  What is printed or emitted is not kept. *)
Record Loggers : Type := mkLoggers {
  root_level : Z;
  root_handlers : list Handler;
  named_levels : Py.dict Z;
  next_handler_id : nat
}.

(** [logger.removeHandler(handler)]: the first entry that is this object
    goes, if there is one. *)
Fixpoint removeHandler (h : Handler) (hs : list Handler) : list Handler :=
  match hs with
  | [] => []
  | x :: r =>
      if Nat.eqb (handler_id x) (handler_id h) then r
      else x :: removeHandler h r
  end.

(** [for handler in logger.handlers[:]: logger.removeHandler(handler)]. *)
Definition clear_handlers (hs : list Handler) : list Handler :=
  fold_left (fun current h => removeHandler h current) hs hs.

(** [logger.addHandler(handler)]: an object already in the list is not
    added again. *)
Definition addHandler (h : Handler) (hs : list Handler) : list Handler :=
  if existsb (fun x => Nat.eqb (handler_id x) (handler_id h)) hs then hs
  else hs ++ [h].

(** The level [setup_logging] settles on: the name and its number. *)
Definition resolve_level (env : Config.environ) (log_level : string) : string * Z :=
  let effective_log_level_str :=
    upper (Py.dict_get_default env "LOG_LEVEL" log_level) in
  match logging_int_attribute effective_log_level_str with
  | Some log_level_int => (effective_log_level_str, log_level_int)
  | None => ("INFO", INFO)
  end.

(** [setup_logging(log_level, project_id)]. *)
Definition setup_logging
           (env : Config.environ) (log_level : string)
           (project_id : option string) (l : Loggers) : Loggers :=
  let log_level_int := snd (resolve_level env log_level) in
  let formatter := {| LoggingConfig.project_id := project_id |} in
  let console_handler :=
    {| handler_id := next_handler_id l;
       handler_stream := "stdout";
       handler_formatter := Some formatter |} in
  {| root_level := log_level_int;
     root_handlers := addHandler console_handler (clear_handlers (root_handlers l));
     named_levels :=
       Py.dict_set
         (Py.dict_set (Py.dict_set (named_levels l) "uvicorn.access" WARNING)
                      "uvicorn.error" INFO)
         "httpx" WARNING;
     next_handler_id := S (next_handler_id l) |}.

(** The [logging] module before anything configured it: the root logger
    at WARNING with no handler. *)
Definition unconfigured : Loggers :=
  {| root_level := WARNING;
     root_handlers := [];
     named_levels := [];
     next_handler_id := 0 |}.

(** Whether the root logger lets a record of this level through. *)
Definition isEnabledFor (l : Loggers) (levelno : Z) : bool :=
  root_level l <=? levelno.

End LoggingSetup.

(* ================================================================== *)
(** ** app/core/app_config.py *)
(* ================================================================== *)

Module AppConfig.

(** The class attributes and the two [lru_cache]s of [AppConfig], with
    the module state of [app.core.config] and the logging configuration
    they act on. *)
Record State : Type := mkState {
  process : Config.Process;
  loggers : LoggingSetup.Loggers;
  _logger : bool;
  bootstrap_cache : option Config.Settings;
  settings_cache : option Config.Settings
}.

(** What a call made while the application is imported ends in. *)
Inductive import_result (A : Type) : Type :=
| Done (a : A)
| Exit (message : string)
| ValidationError.
Arguments Done {A} a.
Arguments Exit {A} message.
Arguments ValidationError {A}.

Section WithEnvironment.

Variable validate_bool : string -> option bool.
Variable fs : Config.dotenv_files.

(** [AppConfig.get_bootstrap_settings_cached()]: a result is cached, an
    exception is not. *)
Definition get_bootstrap_settings_cached (st : State)
  : import_result Config.Settings * State :=
  match bootstrap_cache st with
  | Some s => (Done s, st)
  | None =>
      match Config.get_bootstrap_settings validate_bool fs (process st) with
      | (Some s, p) =>
          (Done s,
           {| process := p; loggers := loggers st; _logger := _logger st;
              bootstrap_cache := Some s; settings_cache := settings_cache st |})
      | (None, p) =>
          (ValidationError,
           {| process := p; loggers := loggers st; _logger := _logger st;
              bootstrap_cache := None; settings_cache := settings_cache st |})
      end
  end.

(** [AppConfig.get_configured_logger()]. *)
Definition get_configured_logger (st : State) : import_result unit * State :=
  if _logger st then (Done tt, st)
  else
    match get_bootstrap_settings_cached st with
    | (Done bootstrap_settings, st1) =>
        (Done tt,
         {| process := process st1;
            loggers :=
              LoggingSetup.setup_logging
                (Config.os_environ (process st1)) "INFO"
                (Config.GCP_PROJECT bootstrap_settings) (loggers st1);
            _logger := true;
            bootstrap_cache := bootstrap_cache st1;
            settings_cache := settings_cache st1 |})
    | (Exit m, st1) => (Exit m, st1)
    | (ValidationError, st1) => (ValidationError, st1)
    end.

(** [AppConfig.get_settings_cached()]. *)
Definition get_settings_cached (st : State)
  : import_result Config.Settings * State :=
  match settings_cache st with
  | Some s => (Done s, st)
  | None =>
      match Config.get_setings validate_bool fs (process st) with
      | (Config.Loaded s, p) =>
          (Done s,
           {| process := p; loggers := loggers st; _logger := _logger st;
              bootstrap_cache := bootstrap_cache st; settings_cache := Some s |})
      | (Config.SysExit m, p) =>
          (Exit m,
           {| process := p; loggers := loggers st; _logger := _logger st;
              bootstrap_cache := bootstrap_cache st; settings_cache := None |})
      end
  end.

(** [AppConfig.initialize_app_config()]. *)
Definition initialize_app_config (st : State) : import_result unit * State :=
  match get_configured_logger st with
  | (Done _, st1) =>
      match get_settings_cached st1 with
      | (Done _, st2) => (Done tt, st2)
      | (Exit m, st2) => (Exit m, st2)
      | (ValidationError, st2) => (ValidationError, st2)
      end
  | (Exit m, st1) => (Exit m, st1)
  | (ValidationError, st1) => (ValidationError, st1)
  end.

(** The two module-level statements [settings = ...] and [logger = ...]
    that run when [app.core.app_config] is imported. *)
Definition import_module (st : State) : import_result Config.Settings * State :=
  match get_settings_cached st with
  | (Done s, st1) =>
      match get_configured_logger st1 with
      | (Done _, st2) => (Done s, st2)
      | (Exit m, st2) => (Exit m, st2)
      | (ValidationError, st2) => (ValidationError, st2)
      end
  | (Exit m, st1) => (Exit m, st1)
  | (ValidationError, st1) => (ValidationError, st1)
  end.

End WithEnvironment.

(** The interpreter before the module is imported. *)
Definition fresh_state (env : Config.environ) : State :=
  {| process := Config.fresh_process env;
     loggers := LoggingSetup.unconfigured;
     _logger := false;
     bootstrap_cache := None;
     settings_cache := None |}.

End AppConfig.

(* ================================================================== *)
(** ** app/core/gcs_client.py: the [GCSClient] singleton *)
(* ================================================================== *)

Module GcsClient.

(** The class attributes [_instance] and [_client] (whether each is set),
    and how often [storage.Client()] has been called. *)
Record Class : Type := mkClass {
  _instance : bool;
  _client : bool;
  client_constructions : nat
}.

Definition initial : Class :=
  {| _instance := false; _client := false; client_constructions := 0 |}.

(** [GCSClient()], that is [GCSClient.__new__]; [constructs] says whether
    [storage.Client()] would return rather than raise. *)
Definition GCSClient (constructs : bool) (c : Class) : Class :=
  if _instance c then c
  else
    {| _instance := true;
       _client := constructs;
       client_constructions := S (client_constructions c) |}.

(** Further [GCSClient()] calls, each with its own answer of
    [storage.Client()]. *)
Definition again (answers : list bool) (c : Class) : Class :=
  fold_left (fun c constructs => GCSClient constructs c) answers c.

(** The [client] property: the client, or [RuntimeError]. *)
Definition client (c : Class) : option unit :=
  if _client c then Some tt else None.

(** The answers the endpoint gets when the storage client is this one. *)
Definition with_client (c : Class) (cloud : GcsUrlEndpoint.Cloud)
  : GcsUrlEndpoint.Cloud :=
  {| GcsUrlEndpoint.auth_default := GcsUrlEndpoint.auth_default cloud;
     GcsUrlEndpoint.credentials_refresh := GcsUrlEndpoint.credentials_refresh cloud;
     GcsUrlEndpoint.client_initialized :=
       match client c with Some _ => true | None => false end;
     GcsUrlEndpoint.blob_exists := GcsUrlEndpoint.blob_exists cloud;
     GcsUrlEndpoint.blob_generate_signed_url :=
       GcsUrlEndpoint.blob_generate_signed_url cloud |}.

End GcsClient.

(* ================================================================== *)
(** ** app/main.py: the [/echo/] route *)
(* ================================================================== *)

Module Echo.

Import Runtime.
Local Open Scope py_scope.

(** [root()]; [now] is [datetime.now()] as the response renders it. *)
Definition root (now : string) : M Json.json :=
  s <- get_settings ;;
  ret (Json.JObj
         [("Project Name", Json.JStr (Config.PROJECT_NAME s));
          ("Environment", Json.JStr (Config.ENVIRONMENT s));
          ("API Version", Json.JStr (Config.API_V1_STR s));
          ("Bucket Name", Json.JStr (Config.GCS_BUCKET_NAME s));
          ("Debug Mode", Json.JBool (Config.DEBUG s));
          ("Timestamp", Json.JStr now)]).

(** The route [GET /echo/]. *)
Definition route (now : string) (request : Http.Request) : M Http.Response :=
  content <- root now ;;
  ret (Http.JSONResponse 200 content).

End Echo.

(* ================================================================== *)
(** ** The entry of [StructuredLogFormatter.format], part by part *)
(* ================================================================== *)

Module LogEntry.

Import LoggingConfig.

(** [if c: entry[k] = v]. *)
Definition set_if (c : bool) (k : string) (v : Json.json) (e : Py.dict Json.json)
  : Py.dict Json.json :=
  if c then Py.dict_set e k v else e.

Definition trace_key : string := "logging.googleapis.com/trace".
Definition span_key : string := "logging.googleapis.com/spanId".

Definition base_keys : list string :=
  ["severity"; "message"; "timestamp";
   "logging.googleapis.com/sourceLocation"; "logging.googleapis.com/labels"].

Definition standard_levelnames : list string :=
  ["CRITICAL"; "ERROR"; "WARNING"; "INFO"; "DEBUG"].

(** The dict literal [format] starts from. *)
Definition base_entry (severity ts : string) (record : LogRecord)
  : Py.dict Json.json :=
  [("severity", Json.JStr severity);
   ("message", Json.JStr (message record));
   ("timestamp", Json.JStr ts);
   ("logging.googleapis.com/sourceLocation",
    Json.JObj [("file", Json.JStr (pathname record));
               ("line", Json.JNum (lineno record));
               ("function", Json.JStr (funcName record))]);
   ("logging.googleapis.com/labels",
    Json.JObj [("python_logger", Json.JStr (name record))])].

Definition has_trace (self : StructuredLogFormatter) (ctx : Context) : bool :=
  (Py.truthy_opt (var_get (trace_id_var ctx)) && Py.truthy_opt (project_id self))%bool.

Definition has_span (ctx : Context) : bool :=
  Py.truthy_opt (var_get (span_id_var ctx)).

Definition has_exception (record : LogRecord) : bool :=
  match exc_info record with Some _ => true | None => false end.

Definition has_stack (record : LogRecord) : bool :=
  Py.truthy_opt (stack_info record).

(** The four conditional assignments of [format], one after the other. *)
Definition staged
           (self : StructuredLogFormatter) (ctx : Context) (ts : string)
           (record : LogRecord) : Py.dict Json.json :=
  let trace_id := var_get (trace_id_var ctx) in
  let span_id := var_get (span_id_var ctx) in
  set_if (has_stack record) "stack_trace"
         (Json.JStr (Py.str_of_opt (stack_info record)))
    (set_if (has_exception record) "exception"
            (Json.JStr (Py.str_of_opt (exc_info record)))
       (set_if (has_span ctx) span_key (Json.JStr (Py.str_of_opt span_id))
          (set_if (has_trace self ctx) trace_key
                  (Json.JStr ("projects/" ++ Py.str_of_opt (project_id self)
                              ++ "/traces/" ++ Py.str_of_opt trace_id))
             (base_entry
                (Py.dict_get_default severity_map (levelname record) "DEFAULT")
                ts record)))).

End LogEntry.

(* ================================================================== *)
(** ** Reading the journal and the log entries *)
(* ================================================================== *)

Module Journal.

Import Runtime.


(** The signing requests a journal holds, oldest first. *)
Fixpoint signing_requests (l : list event) : list SignRequest :=
  match l with
  | [] => []
  | BlobGenerateSignedUrl _ _ req :: r => req :: signing_requests r
  | _ :: r => signing_requests r
  end.

(** The exceptions logged with a traceback, oldest first. *)
Fixpoint logged_exceptions (l : list event) : list exn :=
  match l with
  | [] => []
  | Log _ _ (Some e) _ :: r => e :: logged_exceptions r
  | _ :: r => logged_exceptions r
  end.

Definition is_hex_digit (c : ascii) : bool :=
  let n := nat_of_ascii c in
  ((Nat.leb 48 n && Nat.leb n 57) || (Nat.leb 97 n && Nat.leb n 102))%bool.

Definition is_decimal_digit (c : ascii) : bool :=
  let n := nat_of_ascii c in (Nat.leb 48 n && Nat.leb n 57)%bool.

Fixpoint forallb_string (p : ascii -> bool) (s : string) : bool :=
  match s with
  | EmptyString => true
  | String c r => (p c && forallb_string p r)%bool
  end.

(** The credentials the endpoint goes on with after its validity check:
    the acquired ones when valid, else the refreshed ones when those are
    valid. *)
Definition goes_on_with
           (cloud : GcsUrlEndpoint.Cloud)
           (acquired usable : GcsUrlEndpoint.Credentials) : Prop :=
  (GcsUrlEndpoint.valid acquired = true /\ usable = acquired) \/
  (GcsUrlEndpoint.valid acquired = false /\
   GcsUrlEndpoint.credentials_refresh cloud acquired = GcsUrlEndpoint.Ok usable /\
   GcsUrlEndpoint.valid usable = true).

(** The statuses the signed-URL route answers with. *)
Definition route_statuses : list Z := [200; 404; 422; 500].

(** The lower-cased names of the headers the trace middleware writes. *)
Definition stamped_names : list string :=
  ["x-process-time"; "x-trace-id"; "x-span-id"].

Definition is_char (c : ascii) : ascii -> bool := Ascii.eqb c.

(** Whether a string is laid out as [YYYY-MM-DDTHH:MM:SS.mmmZ]. *)
Fixpoint matches (pattern : list (ascii -> bool)) (s : string) : bool :=
  match pattern, s with
  | [], EmptyString => true
  | p :: pattern', String c r => (p c && matches pattern' r)%bool
  | _, _ => false
  end.

Definition iso_utc_milliseconds : list (ascii -> bool) :=
  let d := is_decimal_digit in
  [d; d; d; d; is_char "-"; d; d; is_char "-"; d; d; is_char "T";
   d; d; is_char ":"; d; d; is_char ":"; d; d; is_char "."; d; d; d;
   is_char "Z"].

End Journal.

(* ================================================================== *)
(** ** More concrete runs *)
(* ================================================================== *)

Module Cases.

Import Runtime.

(** The context while the request of [Scenario.fresh] is being handled. *)
Definition traced_context : LoggingConfig.Context :=
  context (TraceMiddleware.entered Scenario.fresh
             (Scenario.get_url (Some "report.pdf") None) Scenario.idle).

(** The entry of the epoch record written in that context. *)
Definition traced_entry : Json.json :=
  Eval vm_compute in
    match LoggingConfig.format Scenario.formatter traced_context
                               Scenario.one_hour_east Scenario.epoch_record with
    | Some entry => entry
    | None => Json.JNull
    end.

Definition utc_host : Z -> Z := fun _ => 0.

(** A handler chain that answers 200 with an empty object. *)
Definition ok_endpoint : Http.Request -> M Http.Response :=
  fun _ => ret (Http.JSONResponse 200 (Json.JObj [])).

(** End-user credentials: valid, but no compute-engine identity. *)
Definition user_credentials : GcsUrlEndpoint.Credentials :=
  {| GcsUrlEndpoint.class_of :=
       GcsUrlEndpoint.OtherCredentials "google.oauth2.credentials.Credentials";
     GcsUrlEndpoint.valid := true;
     GcsUrlEndpoint.token := Some "ya29.user";
     GcsUrlEndpoint.service_account_email := None |}.

Definition user_cloud : GcsUrlEndpoint.Cloud :=
  {| GcsUrlEndpoint.auth_default := fun _ =>
       GcsUrlEndpoint.Ok (user_credentials, None);
     GcsUrlEndpoint.credentials_refresh := fun c => GcsUrlEndpoint.Ok c;
     GcsUrlEndpoint.client_initialized := true;
     GcsUrlEndpoint.blob_exists := fun _ _ => GcsUrlEndpoint.Ok true;
     GcsUrlEndpoint.blob_generate_signed_url := fun _ _ _ =>
       GcsUrlEndpoint.Ok "https://storage.googleapis.com/signed" |}.

Definition no_credentials : GcsUrlEndpoint.library_error :=
  GcsUrlEndpoint.CredentialsNotFound
    "Your default credentials were not found.".

(** A host without application default credentials. *)
Definition bare_cloud : GcsUrlEndpoint.Cloud :=
  {| GcsUrlEndpoint.auth_default := fun _ => GcsUrlEndpoint.Err no_credentials;
     GcsUrlEndpoint.credentials_refresh := fun c => GcsUrlEndpoint.Ok c;
     GcsUrlEndpoint.client_initialized := true;
     GcsUrlEndpoint.blob_exists := fun _ _ => GcsUrlEndpoint.Ok true;
     GcsUrlEndpoint.blob_generate_signed_url := fun _ _ _ =>
       GcsUrlEndpoint.Ok "https://storage.googleapis.com/signed" |}.

(** The signing request of [Scenario.healthy_cloud] for [report.pdf]. *)
Definition report_request : SignRequest :=
  {| version := "v4";
     expiration_seconds := 300;
     method := "GET";
     sign_service_account_email := "signer@demo.iam.gserviceaccount.com";
     access_token := Some "ya29.token";
     response_disposition := "attachment; filename=report.pdf" |}.

(** The interpreter before the module is imported, with the project id
    in the environment and with nothing in it, and after the first
    [get_configured_logger]. *)
Definition cold : AppConfig.State :=
  AppConfig.fresh_state [("GCP_PROJECT", "demo-project")].

Definition bare : AppConfig.State := AppConfig.fresh_state [].

Definition configured : AppConfig.State :=
  snd (AppConfig.get_configured_logger Config.pydantic_bool Config.no_dotenv cold).

End Cases.

(* ================================================================== *)
(** * Properties *)
(* ================================================================== *)

#[local] Arguments String.eqb : simpl never.

(* ------------------------------------------------------------------ *)
(** ** Settings resolution *)
(* ------------------------------------------------------------------ *)

Section ConfigFacts.

Import Config.

Variable validate_bool : string -> option bool.

Lemma _environment_settings_map_recognized (name : string) :
  _environment_settings_map name = None <-> ~ In name recognized_profiles.
Proof.
  unfold _environment_settings_map, recognized_profiles. simpl.
  repeat match goal with
         | |- context [String.eqb ?a name] =>
             destruct (String.eqb_spec a name) as [<- | ?]
         end;
    split; intros H; try discriminate; try tauto;
    exfalso; apply H; tauto.
Qed.

Lemma select_settings_class_unknown (name : string) :
  ~ In name recognized_profiles -> select_settings_class name = LocalSettings.
Proof.
  intros H. unfold select_settings_class.
  apply _environment_settings_map_recognized in H. now rewrite H.
Qed.

(** Every class but [BootstrapSettings] declares a string as the default
    of [GCP_PROJECT]. *)
Lemma declared_GCP_PROJECT (c : settings_class) :
  c <> BootstrapSettings ->
  exists project, GCP_PROJECT (declared_defaults c) = Some project.
Proof. destruct c; [contradiction | ..]; intros _; eexists; reflexivity. Qed.

Lemma select_settings_class_is_a_profile (name : string) :
  select_settings_class name <> BootstrapSettings.
Proof.
  unfold select_settings_class, _environment_settings_map. cbn [Py.dict_get].
  repeat match goal with
         | |- context [String.eqb ?a name] => destruct (String.eqb a name)
         end; discriminate.
Qed.

(** What construction comes down to: the two fields that are validated. *)
Lemma instantiate_inv (c : settings_class) (env : environ) (s : Settings) :
  instantiate validate_bool c env = Some s ->
  exists dbg project,
    (match env_field env "DEBUG" with
     | Some raw => validate_bool raw
     | None => Some (DEBUG (declared_defaults c))
     end) = Some dbg /\
    (match env_field env "GCP_PROJECT" with
     | Some v => Some v
     | None => GCP_PROJECT (declared_defaults c)
     end) = Some project /\
    DEBUG s = dbg /\
    GCP_PROJECT s = Some project /\
    LOG_LEVEL s = match env_field env "LOG_LEVEL" with
                  | Some v => v
                  | None => LOG_LEVEL (declared_defaults c)
                  end.
Proof.
  unfold instantiate. cbv zeta.
  destruct (match env_field env "DEBUG" with
            | Some raw => validate_bool raw
            | None => Some (DEBUG (declared_defaults c))
            end) as [dbg |]; [| discriminate].
  destruct (match env_field env "GCP_PROJECT" with
            | Some v => Some v
            | None => GCP_PROJECT (declared_defaults c)
            end) as [project |]; [| discriminate].
  intros [= <-]. exists dbg, project. repeat split.
Qed.

(** Construction of a profile class fails on a malformed [DEBUG] only. *)
Lemma instantiate_succeeds (c : settings_class) (env : environ) :
  c <> BootstrapSettings ->
  (forall raw, env_field env "DEBUG" = Some raw -> validate_bool raw <> None) ->
  exists s, instantiate validate_bool c env = Some s.
Proof.
  intros Hc Hdebug. destruct (declared_GCP_PROJECT c Hc) as [project Hproject].
  unfold instantiate. cbv zeta. rewrite Hproject.
  destruct (env_field env "DEBUG") as [raw |] eqn:E.
  - specialize (Hdebug raw eq_refl).
    destruct (validate_bool raw); [| congruence].
    destruct (env_field env "GCP_PROJECT"); eexists; reflexivity.
  - destruct (env_field env "GCP_PROJECT"); eexists; reflexivity.
Qed.

Lemma instantiate_GCP_PROJECT (c : settings_class) (env : environ) (s : Settings) :
  instantiate validate_bool c env = Some s ->
  GCP_PROJECT s =
    match env_field env "GCP_PROJECT" with
    | Some v => Some v
    | None => GCP_PROJECT (declared_defaults c)
    end.
Proof.
  intros H. apply instantiate_inv in H as (dbg & project & _ & Hproject & _ & -> & _).
  now rewrite Hproject.
Qed.

Lemma dict_get_In {V} (d : Py.dict V) (k : string) (v : V) :
  Py.dict_get d k = Some v -> In (k, v) d.
Proof.
  induction d as [| [k0 v0] r IH]; simpl; [discriminate |].
  destruct (String.eqb_spec k0 k) as [-> | _].
  - intros [= ->]. now left.
  - intros H. right. now apply IH.
Qed.

Lemma last_value_In (d : Py.dict string) (k v : string) :
  last_value d k = Some v -> In (k, v) d.
Proof.
  induction d as [| [k0 v0] r IH]; simpl; [discriminate |].
  destruct (last_value r k) as [v' |].
  - intros [= ->]. right. now apply IH.
  - destruct (String.eqb_spec k0 k) as [-> | _]; [| discriminate].
    intros [= ->]. now left.
Qed.

Lemma last_value_None (d : Py.dict string) (k : string) :
  last_value d k = None <-> (forall k' v, In (k', v) d -> k' <> k).
Proof.
  induction d as [| [k0 v0] r IH]; simpl.
  - split; [intros _ k' v [] | reflexivity].
  - destruct (last_value r k) as [v' |] eqn:E.
    + split; [discriminate |].
      intros H. exfalso.
      assert (Hr : forall k' v, In (k', v) r -> k' <> k)
        by (intros; apply (H k' v); auto).
      apply IH in Hr. discriminate.
    + destruct (String.eqb_spec k0 k) as [-> | Hne].
      * split; [discriminate |]. intros H. exfalso. apply (H k v0); auto.
      * split; [| reflexivity]. intros _ k' v [[= <- <-] | Hin]; [exact Hne |].
        destruct IH as [IH _]. apply (IH eq_refl k' v Hin).
Qed.

Lemma In_parse_env_vars (env : environ) (k' v : string) :
  In (k', v) (parse_env_vars env) <-> exists k, k' = Py.lower k /\ In (k, v) env.
Proof.
  induction env as [| [k0 v0] r IH]; simpl.
  - split; [contradiction | intros [k [_ []]]].
  - rewrite IH. split.
    + intros [[= <- <-] | [k [Hk Hin]]]; [exists k0 | exists k]; auto.
    + intros [k [Hk [[= <- <-] | Hin]]]; [left; congruence | right; exists k; auto].
Qed.

(** No variable of that name is set, whatever the case of its letters. *)
Lemma env_field_None (env : environ) (field_name : string) :
  env_field env field_name = None <->
  (forall k v, In (k, v) env -> Py.lower k <> Py.lower field_name).
Proof.
  unfold env_field. rewrite last_value_None. split.
  - intros H k v Hin. apply (H (Py.lower k) v).
    apply In_parse_env_vars. exists k; auto.
  - intros H k' v Hin. apply In_parse_env_vars in Hin as [k [-> Hin]].
    apply (H k v Hin).
Qed.

(** The variable is set and no other spelling of its name is. *)
Lemma env_field_unique (env : environ) (field_name v : string) :
  Py.dict_get env field_name = Some v ->
  (forall k v', In (k, v') env -> Py.lower k = Py.lower field_name ->
                k = field_name /\ v' = v) ->
  env_field env field_name = Some v.
Proof.
  intros Hget Huniq.
  destruct (env_field env field_name) as [v' |] eqn:E.
  - unfold env_field in E. apply last_value_In in E.
    apply In_parse_env_vars in E as [k [Hk Hin]].
    destruct (Huniq k v' Hin (eq_sym Hk)) as [_ ->]. reflexivity.
  - exfalso. apply dict_get_In in Hget.
    rewrite env_field_None in E. now apply (E field_name v).
Qed.

(** The second call returns the object the first one cached. *)
Lemma get_setings_cached (fs : dotenv_files) (p : Process) (s : Settings) :
  _settings_instance p = Some s ->
  get_setings validate_bool fs p = (Loaded s, p).
Proof. intros H. unfold get_setings. now rewrite H. Qed.

(** C9: an environment name outside the recognized profiles selects
    [LocalSettings], and resolution returns the settings built from that
    class (construction can only fail on a malformed [DEBUG] value, which
    has nothing to do with the name). *)
Theorem get_setings_unknown_environment_is_local
        (fs : dotenv_files) (p : Process) :
  _settings_instance p = None ->
  let env := load_environment fs (os_environ p) in
  ~ In (current_environment_name env) recognized_profiles ->
  (forall raw, env_field env "DEBUG" = Some raw -> validate_bool raw <> None) ->
  select_settings_class (current_environment_name env) = LocalSettings /\
  exists s,
    fst (get_setings validate_bool fs p) = Loaded s /\
    instantiate validate_bool LocalSettings env = Some s /\
    _settings_instance (snd (get_setings validate_bool fs p)) = Some s.
Proof.
  intros Hnone env Hname Hdebug.
  pose proof (select_settings_class_unknown _ Hname) as Hsel.
  split; [exact Hsel |].
  destruct (instantiate_succeeds LocalSettings env ltac:(discriminate) Hdebug)
    as [s Hs].
  exists s. unfold get_setings. rewrite Hnone. fold env. rewrite Hsel, Hs.
  simpl. auto.
Qed.

(** C10, as the code has it: the resolved [GCP_PROJECT] is the value
    pydantic-settings reads from the environment; with the variable
    [GCP_PROJECT] set (and no other spelling of the name beside it) that
    is its value, and with no such variable set it is the default the
    selected class declares, not [None]. *)
Theorem get_setings_GCP_PROJECT
        (fs : dotenv_files) (p : Process) (s : Settings) :
  _settings_instance p = None ->
  fst (get_setings validate_bool fs p) = Loaded s ->
  let env := load_environment fs (os_environ p) in
  let c := select_settings_class (current_environment_name env) in
  (forall v, env_field env "GCP_PROJECT" = Some v -> GCP_PROJECT s = Some v) /\
  (forall v,
      Py.dict_get env "GCP_PROJECT" = Some v ->
      (forall k v', In (k, v') env -> Py.lower k = "gcp_project" ->
                    k = "GCP_PROJECT" /\ v' = v) ->
      GCP_PROJECT s = Some v) /\
  ((forall k v, In (k, v) env -> Py.lower k <> "gcp_project") ->
   GCP_PROJECT s = GCP_PROJECT (declared_defaults c)).
Proof.
  intros Hnone Hget env c.
  unfold get_setings in Hget. rewrite Hnone in Hget. fold env in Hget. fold c in Hget.
  destruct (instantiate validate_bool c env) as [s' |] eqn:Hinst; simpl in Hget;
    [| discriminate].
  injection Hget as ->.
  apply instantiate_GCP_PROJECT in Hinst. repeat split.
  - intros v Hv. now rewrite Hinst, Hv.
  - intros v Hv Huniq.
    now rewrite Hinst, (env_field_unique env "GCP_PROJECT" v Hv Huniq).
  - intros Habsent. apply (env_field_None env "GCP_PROJECT") in Habsent.
    now rewrite Hinst, Habsent.
Qed.

End ConfigFacts.

Lemma get_setings_unknown_environment_is_local_witness :
  let p := Config.fresh_process [("ENVIRONMENT", "qa")] in
  Config.select_settings_class "qa" = Config.LocalSettings /\
  exists s,
    fst (Config.get_setings Config.pydantic_bool Config.no_dotenv p) = Config.Loaded s /\
    Config.instantiate Config.pydantic_bool Config.LocalSettings
                       [("ENVIRONMENT", "qa")] = Some s /\
    Config._settings_instance
      (snd (Config.get_setings Config.pydantic_bool Config.no_dotenv p)) = Some s.
Proof.
  apply (get_setings_unknown_environment_is_local
           Config.pydantic_bool Config.no_dotenv
           (Config.fresh_process [("ENVIRONMENT", "qa")])).
  - reflexivity.
  - vm_compute. intuition discriminate.
  - vm_compute. discriminate.
Defined.

Lemma get_setings_GCP_PROJECT_witness :
  Config.GCP_PROJECT (Config.declared_defaults Config.LocalSettings)
  = Some "grpit-cds-sandpit-dev".
Proof.
  apply (get_setings_GCP_PROJECT
           Config.pydantic_bool Config.no_dotenv (Config.fresh_process [])
           (Config.declared_defaults Config.LocalSettings) eq_refl eq_refl).
  intros k v [].
Defined.

(** C10 as stated fails: with no [GCP_PROJECT] in the environment the
    local profile resolves to its declared default while
    [os.environ.get("GCP_PROJECT")] is [None]. *)
Lemma get_setings_keeps_declared_GCP_PROJECT :
  let r := Config.get_setings Config.pydantic_bool Config.no_dotenv
                              (Config.fresh_process []) in
  exists s,
    fst r = Config.Loaded s /\
    Py.dict_get (Config.os_environ (snd r)) "GCP_PROJECT" = None /\
    Config.GCP_PROJECT s = Some "grpit-cds-sandpit-dev" /\
    Config.GCP_PROJECT s <> Py.dict_get (Config.os_environ (snd r)) "GCP_PROJECT".
Proof. eexists. repeat split. discriminate. Qed.

(* ------------------------------------------------------------------ *)
(** ** The structured log formatter *)
(* ------------------------------------------------------------------ *)

Section LoggingFacts.

Import LoggingConfig.

Variable utcoffset : Z -> Z.

(** What the formatter writes is the UTC rendering of another instant:
    the creation time moved by the host's offset from UTC. *)
Lemma timestamp_is_shifted_utc (record : LogRecord) :
  timestamp utcoffset record =
  spec_utc_timestamp
    (created_us record + 1000000 * utcoffset (created_us record / 1000000)).
Proof.
  unfold timestamp, spec_utc_timestamp, fromtimestamp.
  set (c := created_us record). set (o := utcoffset (c / 1000000)).
  replace (c + 1000000 * o) with (c + o * 1000000) by lia.
  rewrite Z.div_add, Z.mod_add by lia.
  unfold broken_down. now rewrite Z.add_0_r.
Qed.

(** On a host whose zone is UTC the two agree. *)
Lemma timestamp_on_utc_host (record : LogRecord) :
  utcoffset (created_us record / 1000000) = 0 ->
  timestamp utcoffset record = spec_utc_timestamp (created_us record).
Proof.
  intros H. rewrite timestamp_is_shifted_utc, H. f_equal. lia.
Qed.

(** Four-digit year, milliseconds and the suffix: 24 characters. *)
Lemma timestamp_length (record : LogRecord) (ts : string) :
  timestamp utcoffset record = Some ts -> String.length ts = 24%nat.
Proof.
  unfold timestamp.
  destruct (fromtimestamp utcoffset (created_us record)); [| discriminate].
  intros [= <-]. reflexivity.
Qed.

Lemma format_timestamp
      (self : StructuredLogFormatter) (ctx : Context)
      (record : LogRecord) (entry : Json.json) :
  format self ctx utcoffset record = Some entry ->
  exists ts, timestamp utcoffset record = Some ts /\
             Json.field entry "timestamp" = Some (Json.JStr ts).
Proof.
  unfold format. destruct (timestamp utcoffset record) as [ts |]; [| discriminate].
  intros [= <-]. exists ts. split; [reflexivity |].
  destruct (var_get (trace_id_var ctx)) as [t |], (project_id self) as [p |],
    (var_get (span_id_var ctx)) as [sp |], (exc_info record),
    (stack_info record) as [st |];
    try destruct (Py.truthy t); try destruct (Py.truthy p);
    try destruct (Py.truthy sp); try destruct (Py.truthy st); reflexivity.
Qed.

End LoggingFacts.

(** C4 fails on the code: [datetime.fromtimestamp] without a zone gives
    the host's local time, and the formatter appends [Z] to it.  A record
    created at the epoch on a host one hour east of UTC is stamped
    01:00:00, where the creation time in UTC is 00:00:00. *)
Theorem format_timestamp_is_host_local_time :
  exists entry,
    LoggingConfig.format Scenario.formatter (Runtime.context Scenario.idle)
                         Scenario.one_hour_east Scenario.epoch_record = Some entry /\
    Json.field entry "timestamp" = Some (Json.JStr "1970-01-01T01:00:00.000Z") /\
    LoggingConfig.spec_utc_timestamp
      (LoggingConfig.created_us Scenario.epoch_record)
    = Some "1970-01-01T00:00:00.000Z".
Proof. eexists. split; [vm_compute; reflexivity | split; vm_compute; reflexivity]. Qed.

(* ------------------------------------------------------------------ *)
(** ** Response headers *)
(* ------------------------------------------------------------------ *)

Section HeaderFacts.

Import Http.

Lemma dict_get_remove_header_ne (h : Headers) (k k' : string) :
  k <> k' -> Py.dict_get (remove_header k h) k' = Py.dict_get h k'.
Proof.
  intros Hne. induction h as [| [k0 v0] r IH]; simpl; [reflexivity |].
  destruct (String.eqb_spec k0 k) as [-> | Hk0].
  - rewrite IH. destruct (String.eqb_spec k k'); [contradiction | reflexivity].
  - simpl. now rewrite IH.
Qed.

Lemma dict_get_replace_header_eq (h : Headers) (k v : string) :
  Py.dict_get (replace_header k v h) k = Some v.
Proof.
  induction h as [| [k0 v0] r IH]; simpl.
  - now rewrite String.eqb_refl.
  - destruct (String.eqb_spec k0 k) as [-> | Hk0]; simpl.
    + now rewrite String.eqb_refl.
    + destruct (String.eqb_spec k0 k); [contradiction | exact IH].
Qed.

Lemma dict_get_replace_header_ne (h : Headers) (k k' v : string) :
  k <> k' -> Py.dict_get (replace_header k v h) k' = Py.dict_get h k'.
Proof.
  intros Hne. induction h as [| [k0 v0] r IH]; simpl.
  - destruct (String.eqb_spec k k'); [contradiction | reflexivity].
  - destruct (String.eqb_spec k0 k) as [-> | Hk0]; simpl.
    + destruct (String.eqb_spec k k'); [contradiction |].
      now apply dict_get_remove_header_ne.
    + now rewrite IH.
Qed.

Lemma headers_get_set_eq (h : Headers) (key value : string) :
  headers_get (headers_set h key value) key = Some value.
Proof. apply dict_get_replace_header_eq. Qed.

Lemma headers_get_set_ne (h : Headers) (key key' value : string) :
  Py.lower key <> Py.lower key' ->
  headers_get (headers_set h key value) key' = headers_get h key'.
Proof. intros H. now apply dict_get_replace_header_ne. Qed.

(** The three headers the middleware writes, read back. *)
Lemma trace_headers_read_back (response : Response) (p t s : string) :
  let stamped :=
    set_header (set_header (set_header response "X-Process-Time" p)
                           "X-Trace-ID" t) "X-Span-ID" s in
  headers_get (headers stamped) "X-Process-Time" = Some p /\
  headers_get (headers stamped) "X-Trace-ID" = Some t /\
  headers_get (headers stamped) "X-Span-ID" = Some s /\
  status_code stamped = status_code response /\
  body stamped = body response.
Proof.
  cbv zeta. unfold set_header. cbn [headers status_code body].
  repeat split.
  - rewrite !headers_get_set_ne by (vm_compute; discriminate).
    apply headers_get_set_eq.
  - rewrite headers_get_set_ne by (vm_compute; discriminate).
    apply headers_get_set_eq.
  - apply headers_get_set_eq.
Qed.

End HeaderFacts.

(* ------------------------------------------------------------------ *)
(** ** The trace middleware *)
(* ------------------------------------------------------------------ *)

Section DispatchFacts.

Import Runtime TraceMiddleware.

Variable fresh : Fresh.
Variable request : Http.Request.
Variable call_next : Http.Request -> M Http.Response.

Let trace_id := uuid4 fresh.
Let span_id := hexlify (urandom fresh).
Let request' := with_state request trace_id span_id.

(** [dispatch] in one step: everything hangs on what [call_next] does in
    the state [entered]. *)
Lemma dispatch_unfold (st : State) :
  dispatch fresh request call_next st =
  match call_next request' (entered fresh request st) with
  | (Returns response, s2) =>
      let process_time := clock s2 - clock st in
      let response := Http.set_header response "X-Process-Time" (format_4f process_time) in
      let response := Http.set_header response "X-Trace-ID" trace_id in
      let response := Http.set_header response "X-Span-ID" span_id in
      (Returns response,
       {| settings := settings s2;
          context :=
            {| LoggingConfig.trace_id_var := LoggingConfig.trace_id_var (context st);
               LoggingConfig.span_id_var := LoggingConfig.span_id_var (context st) |};
          clock := clock s2;
          journal :=
            journal s2
            ++ [Log INFO ("Request finished: Status "
                          ++ Py.str_of_int (Http.status_code response)
                          ++ " (" ++ format_4f process_time ++ "s)") None []] |})
  | (Raises e, s2) =>
      (Raises e,
       {| settings := settings s2;
          context := context s2;
          clock := clock s2;
          journal :=
            journal s2
            ++ [Log ERROR ("Exception during request processing: " ++ exn_str e
                           ++ " (" ++ format_4f (clock s2 - clock st) ++ "s)")
                    (Some e) []] |})
  end.
Proof.
  cbv [dispatch entered bind try_except trace_id_var_set span_id_var_set
       trace_id_var_reset span_id_var_reset perf_counter log log_exception
       emit get_context put_context ret raise
       settings context clock journal
       LoggingConfig.trace_id_var LoggingConfig.span_id_var
       with_state Http.http_method Http.url_path Http.base_url
       request' trace_id span_id].
  destruct (call_next _ _) as [[response | e] s2]; reflexivity.
Qed.

(** X9: when [call_next] returns, both variables are back at the bindings
    they had on entry, whatever the handler chain did to them. *)
Lemma dispatch_resets_context_on_return
      (st s2 : State) (response : Http.Response) :
  call_next request' (entered fresh request st) = (Returns response, s2) ->
  context (snd (dispatch fresh request call_next st)) = context st.
Proof.
  intros H. rewrite dispatch_unfold, H. cbn [snd context].
  now destruct (context st).
Qed.

(** C1 fails on the code: when [call_next] raises, [dispatch] re-raises
    from the [except] clause and never reaches the two [reset] calls; the
    context is left as the handler chain left it, with the request's
    identifiers still bound. *)
Theorem dispatch_keeps_context_on_exception (st s2 : State) (e : exn) :
  call_next request' (entered fresh request st) = (Raises e, s2) ->
  fst (dispatch fresh request call_next st) = Raises e /\
  context (snd (dispatch fresh request call_next st)) = context s2.
Proof.
  intros H. rewrite dispatch_unfold, H. split; reflexivity.
Qed.

End DispatchFacts.

Lemma dispatch_keeps_context_on_exception_witness :
  let r := TraceMiddleware.dispatch Scenario.fresh (Scenario.get_url (Some "report.pdf") None)
                                    Scenario.failing_endpoint Scenario.idle in
  fst r = Runtime.Raises Scenario.boom /\
  Runtime.context (snd r)
  = {| LoggingConfig.trace_id_var :=
         LoggingConfig.Bound (Some "0f8fad5b-d9cb-469f-a165-70867728950e");
       LoggingConfig.span_id_var := LoggingConfig.Bound (Some "001fabff1002039a") |}.
Proof.
  apply (dispatch_keeps_context_on_exception
           Scenario.fresh (Scenario.get_url (Some "report.pdf") None)
           Scenario.failing_endpoint Scenario.idle
           (TraceMiddleware.entered Scenario.fresh
              (Scenario.get_url (Some "report.pdf") None) Scenario.idle)
           Scenario.boom).
  reflexivity.
Defined.


(* ------------------------------------------------------------------ *)
(** ** The signed-URL endpoint *)
(* ------------------------------------------------------------------ *)

Section EndpointFacts.

Import Runtime GcsUrlEndpoint.

Variable cloud : Cloud.

(** Symbolic execution of the endpoint: unfold the monad, then follow the
    answers of the collaborators one branch at a time.  An answer that a
    hypothesis fixes is rewritten, any other is split into its cases. *)
Ltac unfold_endpoint :=
  cbv [generate_signed_url generate_signed_url_body generate_signed_url_except
       gcs_service_client gcs_service_bucket_name lift to_exn is_HTTPException
       is_ComputeEngineCredentials
       bind try_except emit log log_exception ret raise get_settings
       assign_GCP_PROJECT settings context clock journal fst snd negb andb
       Config.set_GCP_PROJECT Config.LOG_LEVEL Config.PROJECT_NAME
       Config.ENVIRONMENT Config.API_V1_STR Config.DEBUG
       Config.GCS_BUCKET_NAME Config.GCP_PROJECT].

Ltac follow x :=
  first [ match goal with H : x = _ |- _ => rewrite H end
        | destruct x eqn:? ].

Ltac branch :=
  match goal with
  | |- context [match auth_default ?c ?s with _ => _ end] =>
      first [ match goal with H : auth_default c s = _ |- _ => rewrite H end
            | destruct (auth_default c s) as [[? ?] | [? | ? ?]] eqn:? ]
  | |- context [if valid ?c then _ else _] => follow (valid c)
  | |- context [match credentials_refresh ?c ?x with _ => _ end] =>
      first [ match goal with H : credentials_refresh c x = _ |- _ => rewrite H end
            | destruct (credentials_refresh c x) as [? | [? | ? ?]] eqn:? ]
  | |- context [match service_account_email ?c with _ => _ end] =>
      follow (service_account_email c)
  | |- context [match class_of ?c with _ => _ end] => follow (class_of c)
  | |- context [if Py.truthy ?e then _ else _] => follow (Py.truthy e)
  | |- context [if client_initialized ?c then _ else _] =>
      follow (client_initialized c)
  | |- context [match blob_exists ?c ?b ?f with _ => _ end] =>
      first [ match goal with H : blob_exists c b f = _ |- _ => rewrite H end
            | destruct (blob_exists c b f) as [[|] | [? | ? ?]] eqn:? ]
  | |- context [match blob_generate_signed_url ?c ?b ?f ?r with _ => _ end] =>
      destruct (blob_generate_signed_url c b f r) as [? | [? | ? ?]] eqn:?
  end.

Ltac run st :=
  destruct st as [[? ? ? ? ? ? ?] ? ? ?];
  cbv [settings Config.GCS_BUCKET_NAME] in *;
  unfold_endpoint; repeat (branch; unfold_endpoint).

(** The journal only grows; this closes the goals that name the events a
    call added. *)
Ltac added_events :=
  eexists; split; [rewrite <- ?app_assoc; reflexivity |].

(** Whatever goes wrong inside the endpoint leaves it as an
    [HTTPException] with one of five fixed messages. *)
Lemma generate_signed_url_failures
      (filename : string) (expires_in : Z) (st : State) (e : exn) :
  fst (generate_signed_url cloud filename expires_in st) = Raises e ->
  exists status detail,
    e = HTTPException status detail /\ In detail endpoint_details /\
    (status = 404 \/ status = 500).
Proof.
  run st.
  all: intros H; try discriminate H; injection H as H; subst e; do 2 eexists;
    (split; [reflexivity |]);
    cbv [endpoint_details In Http.HTTP_404_NOT_FOUND Http.HTTP_500_INTERNAL_SERVER_ERROR];
    tauto.
Qed.

(** C3, as the code has it: a call leaves every field of the settings
    object as it was except [GCP_PROJECT], which it overwrites with the
    project id [google.auth.default] returned (the object is untouched
    when that call raises). *)
Theorem generate_signed_url_settings
        (filename : string) (expires_in : Z) (st : State) :
  let before := settings st in
  let after := settings (snd (generate_signed_url cloud filename expires_in st)) in
  (Config.LOG_LEVEL after = Config.LOG_LEVEL before /\
   Config.PROJECT_NAME after = Config.PROJECT_NAME before /\
   Config.ENVIRONMENT after = Config.ENVIRONMENT before /\
   Config.API_V1_STR after = Config.API_V1_STR before /\
   Config.DEBUG after = Config.DEBUG before /\
   Config.GCS_BUCKET_NAME after = Config.GCS_BUCKET_NAME before) /\
  match auth_default cloud scopes with
  | Ok (_, project) => Config.GCP_PROJECT after = project
  | Err _ => after = before
  end.
Proof.
  run st; repeat split.
Qed.

(** C5: an [expires_in] below 20 or above 3600 is answered with 422
    before the function body runs, so the state, journal included, is
    untouched; 20 and 3600 pass, as does every value between; the value
    is 300 when the parameter is left out. *)
Theorem expires_in_is_validated_first (request : Http.Request) (st : State) :
  (forall v,
      Http.query_expires_in request = Some v -> v < 20 \/ 3600 < v ->
      exists response,
        route cloud request st = (Returns response, st) /\
        Http.status_code response = 422 /\
        Http.is_client_error (Http.status_code response) = true) /\
  (forall filename v,
      Http.query_filename request = Some filename ->
      Http.query_expires_in request = Some v -> 20 <= v <= 3600 ->
      route cloud request st
      = bind (generate_signed_url cloud filename v)
             (fun content => ret (Http.JSONResponse 200 content)) st) /\
  (forall filename,
      Http.query_filename request = Some filename ->
      Http.query_expires_in request = None ->
      route cloud request st
      = bind (generate_signed_url cloud filename 300)
             (fun content => ret (Http.JSONResponse 200 content)) st) /\
  validate_expires_in (Some 20) = inl 20 /\
  validate_expires_in (Some 3600) = inl 3600 /\
  validate_expires_in None = inl 300.
Proof.
  repeat split.
  - intros v Hq Hv. unfold route, validate_expires_in. rewrite Hq.
    destruct (Z.leb_spec 20 v); cbn [negb].
    + destruct (Z.leb_spec v 3600); cbn [negb]; [lia |].
      destruct (validate_filename (Http.query_filename request));
        eexists; repeat split.
    + destruct (validate_filename (Http.query_filename request));
        eexists; repeat split.
  - intros filename v Hf Hq [Hlo Hhi]. unfold route, validate_expires_in.
    rewrite Hf, Hq. cbn [validate_filename].
    destruct (Z.leb_spec 20 v); [| lia].
    destruct (Z.leb_spec v 3600); [| lia]. reflexivity.
  - intros filename Hf Hq. unfold route. rewrite Hf, Hq. reflexivity.
Qed.

(** C6: invalid credentials are refreshed once; when they are still
    invalid the endpoint raises the 500 for invalid credentials, and
    neither the existence check nor the signing call is made. *)
Theorem invalid_credentials_are_refreshed_once
        (filename : string) (expires_in : Z) (st : State)
        (credentials : Credentials) (project : option string) :
  auth_default cloud scopes = Ok (credentials, project) ->
  valid credentials = false ->
  let r := generate_signed_url cloud filename expires_in st in
  exists added,
    journal (snd r) = (journal st ++ added)%list /\
    count is_refresh added = 1%nat /\
    (forall refreshed,
        credentials_refresh cloud credentials = Ok refreshed ->
        valid refreshed = false ->
        fst r = Raises (HTTPException 500 detail_invalid_credentials) /\
        count is_exists added = 0%nat /\
        count is_signing added = 0%nat).
Proof.
  intros Hdefault Hvalid. run st.
  all: added_events; (split; [reflexivity |]).
  all: intros refreshed Hrefresh Hstill; try congruence.
  all: repeat split.
Qed.

(** C7: with usable credentials and a signing identity, an object the
    existence check reports absent ends the call in the 404; the check
    was made once and the signing call not at all. *)
Theorem missing_object_is_not_found
        (filename : string) (expires_in : Z) (st : State)
        (acquired usable : Credentials) (project : option string)
        (email : string) :
  auth_default cloud scopes = Ok (acquired, project) ->
  (valid acquired = true /\ usable = acquired) \/
  (valid acquired = false /\
   credentials_refresh cloud acquired = Ok usable /\ valid usable = true) ->
  class_of usable = ComputeEngineCredentials ->
  service_account_email usable = Some email ->
  Py.truthy email = true ->
  client_initialized cloud = true ->
  blob_exists cloud (Config.GCS_BUCKET_NAME (settings st)) filename = Ok false ->
  let r := generate_signed_url cloud filename expires_in st in
  fst r = Raises (HTTPException 404 detail_not_found) /\
  exists added,
    journal (snd r) = (journal st ++ added)%list /\
    count is_exists added = 1%nat /\
    count is_signing added = 0%nat.
Proof.
  intros Hdefault [[Hvalid ->] | (Hvalid & Hrefresh & Husable)]
         Hclass Hemail Htruthy Hclient Habsent.
  - run st. all: split; [reflexivity |]; added_events; split; reflexivity.
  - run st. all: split; [reflexivity |]; added_events; split; reflexivity.
Qed.

End EndpointFacts.

Lemma expires_in_is_validated_first_witness :
  exists response,
    GcsUrlEndpoint.route Scenario.healthy_cloud
                         (Scenario.get_url (Some "report.pdf") (Some 19)) Scenario.idle
    = (Runtime.Returns response, Scenario.idle) /\
    Http.status_code response = 422 /\
    Http.is_client_error (Http.status_code response) = true.
Proof.
  destruct (expires_in_is_validated_first
              Scenario.healthy_cloud
              (Scenario.get_url (Some "report.pdf") (Some 19)) Scenario.idle)
    as [H _].
  apply (H 19); [reflexivity | lia].
Defined.

Lemma invalid_credentials_are_refreshed_once_witness :
  fst (GcsUrlEndpoint.generate_signed_url Scenario.expired_cloud "report.pdf" 300
                                          Scenario.idle)
  = Runtime.Raises
      (Runtime.HTTPException 500 GcsUrlEndpoint.detail_invalid_credentials).
Proof.
  destruct (invalid_credentials_are_refreshed_once
              Scenario.expired_cloud "report.pdf" 300 Scenario.idle
              Scenario.stale_credentials (Some "demo-project") eq_refl eq_refl)
    as (added & _ & _ & H).
  apply (H Scenario.stale_credentials eq_refl eq_refl).
Defined.

Lemma missing_object_is_not_found_witness :
  let r := GcsUrlEndpoint.generate_signed_url Scenario.healthy_cloud "missing.txt" 300
                                              Scenario.idle in
  fst r = Runtime.Raises (Runtime.HTTPException 404 GcsUrlEndpoint.detail_not_found) /\
  exists added,
    Runtime.journal (snd r) = (Runtime.journal Scenario.idle ++ added)%list /\
    Runtime.count Runtime.is_exists added = 1%nat /\
    Runtime.count Runtime.is_signing added = 0%nat.
Proof.
  apply (missing_object_is_not_found
           Scenario.healthy_cloud "missing.txt" 300 Scenario.idle
           Scenario.compute_credentials Scenario.compute_credentials
           (Some "demo-project") "signer@demo.iam.gserviceaccount.com"
           eq_refl (or_introl (conj eq_refl eq_refl))
           eq_refl eq_refl eq_refl eq_refl eq_refl).
Defined.

(** C3 as stated fails: a call stores the project id that
    [google.auth.default] returned in the shared settings object. *)
Lemma generate_signed_url_overwrites_GCP_PROJECT :
  let after :=
    snd (GcsUrlEndpoint.generate_signed_url Scenario.healthy_cloud "report.pdf" 300
                                            Scenario.idle) in
  Config.GCP_PROJECT (Runtime.settings Scenario.idle) = Some "grpit-cds-sandpit-dev" /\
  Config.GCP_PROJECT (Runtime.settings after) = Some "demo-project" /\
  Runtime.settings after <> Runtime.settings Scenario.idle.
Proof.
  repeat split. intros H.
  apply (f_equal Config.GCP_PROJECT) in H. vm_compute in H. discriminate.
Qed.

(* ------------------------------------------------------------------ *)
(** ** The exception handlers and the middleware stack *)
(* ------------------------------------------------------------------ *)

Section ErrorBodies.

Import Runtime.

Variable cloud : GcsUrlEndpoint.Cloud.

(** C2, as the code has it: every failure of [generate_signed_url] is an
    [HTTPException] with status 404 or 500 and one of five fixed messages,
    and the client gets exactly that status and the body
    [{code: HTTP_ERROR, message: <that message>}] from the [HTTPException]
    handler; no exception leaves the route past that handler.  The
    handler for every other exception answers with the fixed code and
    message too, but adds a [details] object that carries the exception's
    class name, its [str()] and the request path. *)
Theorem error_response_bodies (request : Http.Request) (st : State) :
  (forall filename expires_in e,
      GcsUrlEndpoint.validate_filename (Http.query_filename request) = inl filename ->
      GcsUrlEndpoint.validate_expires_in (Http.query_expires_in request)
      = inl expires_in ->
      fst (GcsUrlEndpoint.generate_signed_url cloud filename expires_in st)
      = Raises e ->
      exists status detail,
        e = HTTPException status detail /\
        (status = 404 \/ status = 500) /\
        In detail GcsUrlEndpoint.endpoint_details /\
        fst (Main.ExceptionMiddleware (GcsUrlEndpoint.route cloud) request st)
        = Returns (Http.JSONResponse status
                     (Json.JObj [("code", Json.JStr "HTTP_ERROR");
                                 ("message", Json.JStr detail)]))) /\
  (exists response,
      fst (Main.ExceptionMiddleware (GcsUrlEndpoint.route cloud) request st)
      = Returns response) /\
  (forall exc,
      exists response,
        fst (Main.generic_exception_handler request exc st) = Returns response /\
        Http.status_code response = 500 /\
        Http.body response
        = Json.JObj
            [("code", Json.JStr "UNEXPECTED_ERROR");
             ("message", Json.JStr Main.unexpected_error_message);
             ("details",
              Json.JObj [("error_type", Json.JStr (exn_type_name exc));
                         ("message", Json.JStr (exn_str exc));
                         ("request_path", Json.JStr (Http.url_path request))])]).
Proof.
  split; [| split].
  - intros filename expires_in e Hf Hx Hrun.
    destruct (generate_signed_url_failures cloud filename expires_in st e Hrun)
      as (status & detail & -> & Hin & Hstatus).
    exists status, detail. split; [reflexivity |]. split; [exact Hstatus |].
    split; [exact Hin |].
    unfold Main.ExceptionMiddleware, try_except, GcsUrlEndpoint.route.
    rewrite Hf, Hx. unfold bind.
    destruct (GcsUrlEndpoint.generate_signed_url cloud filename expires_in st)
      as [[content | e] s']; cbn [fst] in Hrun; [discriminate |].
    injection Hrun as ->. reflexivity.
  - unfold Main.ExceptionMiddleware, try_except, GcsUrlEndpoint.route.
    destruct (GcsUrlEndpoint.validate_filename (Http.query_filename request))
      as [filename | err];
      destruct (GcsUrlEndpoint.validate_expires_in (Http.query_expires_in request))
      as [expires_in | err'];
      try (eexists; reflexivity).
    unfold bind.
    destruct (GcsUrlEndpoint.generate_signed_url cloud filename expires_in st)
      as [[content | e] s'] eqn:Hrun.
    + eexists; reflexivity.
    + destruct (generate_signed_url_failures cloud filename expires_in st e)
        as (status & detail & -> & _).
      { now rewrite Hrun. }
      eexists; reflexivity.
  - intros exc. eexists. repeat split.
Qed.

End ErrorBodies.

Lemma error_response_bodies_witness :
  fst (Main.ExceptionMiddleware
         (GcsUrlEndpoint.route Scenario.healthy_cloud)
         (Scenario.get_url (Some "missing.txt") None) Scenario.idle)
  = Runtime.Returns
      (Http.JSONResponse 404
         (Json.JObj [("code", Json.JStr "HTTP_ERROR");
                     ("message", Json.JStr GcsUrlEndpoint.detail_not_found)])).
Proof.
  destruct (proj1 (error_response_bodies
                     Scenario.healthy_cloud
                     (Scenario.get_url (Some "missing.txt") None) Scenario.idle)
                  "missing.txt" 300
                  (Runtime.HTTPException 404 GcsUrlEndpoint.detail_not_found)
                  eq_refl eq_refl eq_refl)
    as (status & detail & He & _ & _ & H).
  injection He as <- <-. exact H.
Defined.

(** C2 as stated fails: the body the outer handler sends for an
    unexpected exception names the exception class and repeats its
    message. *)
Lemma generic_exception_handler_discloses_exception :
  exists response st,
    Main.app Scenario.fresh Scenario.failing_endpoint
             (Scenario.get_url (Some "report.pdf") None) Scenario.idle
    = (Runtime.Returns response, st) /\
    Json.keys (Http.body response) = ["code"; "message"; "details"] /\
    Json.mentions (Http.body response) "ValueError" = true /\
    Json.mentions (Http.body response) "secret-dsn-42" = true.
Proof. do 2 eexists. repeat split. Qed.

Section AppFacts.

Import Runtime.

Variable fresh : TraceMiddleware.Fresh.
Variable endpoint : Http.Request -> M Http.Response.
Variable request : Http.Request.

Let request' :=
  TraceMiddleware.with_state request (TraceMiddleware.uuid4 fresh)
    (TraceMiddleware.hexlify (TraceMiddleware.urandom fresh)).

(** C8, as the code has it: the three headers are on every response the
    handler chain returns, the error responses made from an
    [HTTPException] included; when another exception passes through the
    middleware, the response of the outer handler has none of them. *)
Theorem app_trace_headers (st : State) :
  let below := endpoint request' (TraceMiddleware.entered fresh request st) in
  let elapsed := clock (snd below) - clock st in
  exists response,
    fst (Main.app fresh endpoint request st) = Returns response /\
    match fst below with
    | Returns _ | Raises (HTTPException _ _) =>
        Http.headers_get (Http.headers response) "X-Trace-ID"
        = Some (TraceMiddleware.uuid4 fresh) /\
        Http.headers_get (Http.headers response) "X-Span-ID"
        = Some (TraceMiddleware.hexlify (TraceMiddleware.urandom fresh)) /\
        Http.headers_get (Http.headers response) "X-Process-Time"
        = Some (TraceMiddleware.format_4f elapsed)
    | Raises _ =>
        Http.status_code response = 500 /\
        Http.headers_get (Http.headers response) "X-Trace-ID" = None /\
        Http.headers_get (Http.headers response) "X-Span-ID" = None /\
        Http.headers_get (Http.headers response) "X-Process-Time" = None
    end.
Proof.
  intros below elapsed. subst elapsed.
  unfold Main.app, Main.ServerErrorMiddleware, try_except.
  rewrite dispatch_unfold.
  unfold Main.ExceptionMiddleware, try_except. fold request'. fold below.
  destruct below as [[response | e] s2]; [| destruct e as [status detail | m | t m]];
    cbn [fst snd]; eexists; (split; [reflexivity |]).
  - pose proof (trace_headers_read_back response) as H. cbv zeta in H.
    edestruct H as (Hp & Ht & Hs & _). eauto.
  - cbv [Main.http_exception_handler bind emit ret clock].
    pose proof (trace_headers_read_back
                  (Http.JSONResponse status
                     (Json.JObj [("code", Json.JStr "HTTP_ERROR");
                                 ("message", Json.JStr detail)]))) as H.
    cbv zeta in H. edestruct H as (Hp & Ht & Hs & _). eauto.
  - repeat split.
  - repeat split.
Qed.

End AppFacts.

(** C8 as stated fails: a request whose handler chain raises an exception
    that is not an [HTTPException] is answered by the outer handler, and
    that response carries none of the three headers. *)
Lemma unhandled_failure_has_no_trace_headers :
  exists response st,
    Main.app Scenario.fresh Scenario.failing_endpoint
             (Scenario.get_url (Some "report.pdf") None) Scenario.idle
    = (Runtime.Returns response, st) /\
    Http.status_code response = 500 /\
    Http.headers_get (Http.headers response) "X-Trace-ID" = None /\
    Http.headers_get (Http.headers response) "X-Span-ID" = None /\
    Http.headers_get (Http.headers response) "X-Process-Time" = None.
Proof. do 2 eexists. repeat split. Qed.

(* ------------------------------------------------------------------ *)
(** ** Dicts *)
(* ------------------------------------------------------------------ *)

Section DictFacts.

Context {V : Type}.

Lemma dict_get_set_eq (d : Py.dict V) (k : string) (v : V) :
  Py.dict_get (Py.dict_set d k v) k = Some v.
Proof.
  induction d as [| [k0 v0] r IH]; simpl.
  - now rewrite String.eqb_refl.
  - destruct (String.eqb_spec k0 k) as [-> | Hne]; simpl.
    + now rewrite String.eqb_refl.
    + destruct (String.eqb_spec k0 k); [contradiction | exact IH].
Qed.

Lemma dict_get_set_ne (d : Py.dict V) (k k' : string) (v : V) :
  k <> k' -> Py.dict_get (Py.dict_set d k v) k' = Py.dict_get d k'.
Proof.
  intros Hne. induction d as [| [k0 v0] r IH]; simpl.
  - destruct (String.eqb_spec k k'); [contradiction | reflexivity].
  - destruct (String.eqb_spec k0 k) as [-> | Hk0]; simpl.
    + destruct (String.eqb_spec k k'); [contradiction | reflexivity].
    + now rewrite IH.
Qed.

(** Assigning to a key that is not there appends it. *)
Lemma dict_set_fresh (d : Py.dict V) (k : string) (v : V) :
  Py.dict_get d k = None -> Py.dict_set d k v = (d ++ [(k, v)])%list.
Proof.
  induction d as [| [k0 v0] r IH]; simpl; [reflexivity |].
  destruct (String.eqb_spec k0 k); [discriminate |].
  intros H. now rewrite IH.
Qed.

End DictFacts.

Section SetIfFacts.

Import LogEntry.

Lemma dict_get_set_if_eq (c : bool) (k : string) (v : Json.json) (e : Py.dict Json.json) :
  Py.dict_get (set_if c k v e) k = if c then Some v else Py.dict_get e k.
Proof. destruct c; [apply dict_get_set_eq | reflexivity]. Qed.

Lemma dict_get_set_if_ne (c : bool) (k k' : string) (v : Json.json) (e : Py.dict Json.json) :
  k <> k' -> Py.dict_get (set_if c k v e) k' = Py.dict_get e k'.
Proof. intros H. destruct c; [now apply dict_get_set_ne | reflexivity]. Qed.

Lemma keys_set_if_fresh (c : bool) (k : string) (v : Json.json) (e : Py.dict Json.json) :
  Py.dict_get e k = None ->
  map fst (set_if c k v e) = (map fst e ++ (if c then [k] else []))%list.
Proof.
  intros H. destruct c; cbn [set_if].
  - rewrite dict_set_fresh by exact H. now rewrite map_app.
  - now rewrite app_nil_r.
Qed.

End SetIfFacts.

(* ------------------------------------------------------------------ *)
(** ** More on the structured log formatter *)
(* ------------------------------------------------------------------ *)

Section FormatFields.

Import LoggingConfig LogEntry.

Variable self : StructuredLogFormatter.
Variable ctx : Context.
Variable utcoffset : Z -> Z.
Variable record : LogRecord.

(** [format] builds its dict by the four conditional assignments. *)
Lemma format_staged :
  format self ctx utcoffset record =
  match timestamp utcoffset record with
  | Some ts => Some (Json.JObj (staged self ctx ts record))
  | None => None
  end.
Proof.
  unfold format, staged, has_stack, has_exception, has_span, has_trace.
  destruct (timestamp utcoffset record) as [ts |]; [| reflexivity].
  do 2 f_equal.
  destruct (stack_info record) as [[| ? ?] |];
    cbn [Py.truthy_opt Py.truthy set_if Py.str_of_opt]; f_equal.
  all: destruct (exc_info record); cbn [set_if Py.str_of_opt]; f_equal.
  all: destruct (var_get (span_id_var ctx)) as [[| ? ?] |];
    cbn [Py.truthy_opt Py.truthy set_if Py.str_of_opt]; f_equal.
  all: destruct (var_get (trace_id_var ctx)) as [[| ? ?] |],
         (project_id self) as [[| ? ?] |]; reflexivity.
Qed.

Lemma format_inv (entry : Json.json) :
  format self ctx utcoffset record = Some entry ->
  exists ts, timestamp utcoffset record = Some ts /\
             entry = Json.JObj (staged self ctx ts record).
Proof.
  rewrite format_staged. destruct (timestamp utcoffset record) as [ts |]; [| discriminate].
  intros [= <-]. now exists ts.
Qed.

Ltac key_ne := cbv; discriminate.

Lemma staged_trace_field (ts : string) :
  Json.field (Json.JObj (staged self ctx ts record)) trace_key
  = if has_trace self ctx
    then Some (Json.JStr ("projects/" ++ Py.str_of_opt (project_id self)
                          ++ "/traces/"
                          ++ Py.str_of_opt (var_get (trace_id_var ctx))))
    else None.
Proof.
  unfold staged; cbn [Json.field].
  rewrite !dict_get_set_if_ne by key_ne. rewrite dict_get_set_if_eq.
  destruct (has_trace self ctx); reflexivity.
Qed.

(** X1: the trace field is there exactly when both a trace id and a
    project id are, and then it is [projects/<project>/traces/<trace id>]. *)
Theorem format_trace_field (entry : Json.json) :
  format self ctx utcoffset record = Some entry ->
  (forall t p,
      var_get (trace_id_var ctx) = Some t -> project_id self = Some p ->
      Py.truthy t = true -> Py.truthy p = true ->
      Json.field entry trace_key
      = Some (Json.JStr ("projects/" ++ p ++ "/traces/" ++ t))) /\
  (Py.truthy_opt (project_id self) = false -> Json.field entry trace_key = None) /\
  (Py.truthy_opt (var_get (trace_id_var ctx)) = false ->
   Json.field entry trace_key = None).
Proof.
  intros H. apply format_inv in H as (ts & _ & ->).
  rewrite staged_trace_field. unfold has_trace. repeat split.
  - intros t p -> -> Ht Hp. cbn [Py.truthy_opt Py.str_of_opt]. now rewrite Ht, Hp.
  - intros ->. now rewrite andb_false_r.
  - intros ->. reflexivity.
Qed.

(** X2: the span id is attached whenever there is one, with or without a
    project id. *)
Theorem format_span_field (entry : Json.json) :
  format self ctx utcoffset record = Some entry ->
  (forall s,
      var_get (span_id_var ctx) = Some s -> Py.truthy s = true ->
      Json.field entry span_key = Some (Json.JStr s)) /\
  (Py.truthy_opt (var_get (span_id_var ctx)) = false ->
   Json.field entry span_key = None).
Proof.
  intros H. apply format_inv in H as (ts & _ & ->).
  unfold staged; cbn [Json.field].
  rewrite !dict_get_set_if_ne by key_ne. rewrite dict_get_set_if_eq.
  rewrite dict_get_set_if_ne by key_ne. unfold has_span. split.
  - intros s -> Hs. cbn [Py.truthy_opt Py.str_of_opt]. now rewrite Hs.
  - intros ->. reflexivity.
Qed.

(** X3: the severity is one of six names: the level name itself for the
    five standard levels, [DEFAULT] for any other. *)
Theorem format_severity (entry : Json.json) :
  format self ctx utcoffset record = Some entry ->
  exists severity,
    Json.field entry "severity" = Some (Json.JStr severity) /\
    In severity (standard_levelnames ++ ["DEFAULT"])%list /\
    (In (levelname record) standard_levelnames -> severity = levelname record) /\
    (~ In (levelname record) standard_levelnames -> severity = "DEFAULT").
Proof.
  intros H. apply format_inv in H as (ts & _ & ->).
  eexists. split.
  { unfold staged; cbn [Json.field].
    rewrite !dict_get_set_if_ne by key_ne. reflexivity. }
  unfold Py.dict_get_default, severity_map, standard_levelnames.
  cbn [Py.dict_get app In].
  repeat match goal with
         | |- context [String.eqb ?a (levelname record)] =>
             destruct (String.eqb_spec a (levelname record)) as [<- | ?]
         end;
    (split; [tauto |]);
    (split; [intros Hin; try reflexivity;
             intuition (try discriminate; try congruence) |]);
    intros Hn; try reflexivity; exfalso; apply Hn; tauto.
Qed.

(** X4: the keys of an entry are the five fixed ones followed by the
    optional ones that apply, in the order trace, span, exception, stack;
    no key occurs twice, and the optional parts leave the message alone. *)
Theorem format_keys (entry : Json.json) :
  format self ctx utcoffset record = Some entry ->
  Json.keys entry
  = (base_keys
     ++ (if has_trace self ctx then [trace_key] else [])
     ++ (if has_span ctx then [span_key] else [])
     ++ (if has_exception record then ["exception"] else [])
     ++ (if has_stack record then ["stack_trace"] else []))%list /\
  NoDup (Json.keys entry) /\
  Json.field entry "message" = Some (Json.JStr (message record)).
Proof.
  intros H. apply format_inv in H as (ts & _ & ->).
  assert (Hkeys :
            Json.keys (Json.JObj (staged self ctx ts record))
            = (base_keys
                 ++ (if has_trace self ctx then [trace_key] else [])
                 ++ (if has_span ctx then [span_key] else [])
                 ++ (if has_exception record then ["exception"] else [])
                 ++ (if has_stack record then ["stack_trace"] else []))%list).
  { unfold staged; cbn [Json.keys].
    rewrite keys_set_if_fresh
      by (rewrite !dict_get_set_if_ne by key_ne; reflexivity).
    rewrite keys_set_if_fresh
      by (rewrite !dict_get_set_if_ne by key_ne; reflexivity).
    rewrite keys_set_if_fresh
      by (rewrite !dict_get_set_if_ne by key_ne; reflexivity).
    rewrite keys_set_if_fresh by reflexivity.
    cbn [base_entry map fst]. rewrite <- !app_assoc. reflexivity. }
  split; [exact Hkeys |]. split.
  - rewrite Hkeys.
    destruct (has_trace self ctx), (has_span ctx), (has_exception record),
      (has_stack record);
      cbn [app base_keys];
      repeat (constructor; [cbv [In trace_key span_key]; intuition discriminate |]);
      constructor.
  - unfold staged; cbn [Json.field].
    rewrite !dict_get_set_if_ne by key_ne. reflexivity.
Qed.

End FormatFields.

Section TimestampShape.

Import LoggingConfig.

Lemma digit_is_decimal (n : Z) : Journal.is_decimal_digit (digit n) = true.
Proof.
  unfold Journal.is_decimal_digit, digit.
  assert (H : (Z.to_nat (n mod 10) < 10)%nat)
    by (pose proof (Z.mod_pos_bound n 10 eq_refl); lia).
  rewrite nat_ascii_embedding by lia.
  apply andb_true_intro. split; apply Nat.leb_le; lia.
Qed.

(** X5: a timestamp is always laid out as [YYYY-MM-DDTHH:MM:SS.mmmZ]:
    digits in the 17 digit places, the separators between them, [Z] last. *)
Theorem timestamp_layout (utcoffset : Z -> Z) (record : LogRecord) (ts : string) :
  timestamp utcoffset record = Some ts ->
  Journal.matches Journal.iso_utc_milliseconds ts = true.
Proof.
  unfold timestamp.
  destruct (fromtimestamp utcoffset (created_us record)) as [dt |]; [| discriminate].
  intros [= <-].
  unfold isoformat_milliseconds, pad4, pad3, pad2.
  cbn [append Journal.matches Journal.iso_utc_milliseconds].
  rewrite !digit_is_decimal. reflexivity.
Qed.

End TimestampShape.

Section SetupLoggingFacts.

Import LoggingSetup.

Lemma count_occ_removeHandler (h : Handler) (hs : list Handler) (i : nat) :
  count_occ Nat.eq_dec (map handler_id (removeHandler h hs)) i
  = if Nat.eqb i (handler_id h)
    then pred (count_occ Nat.eq_dec (map handler_id hs) i)
    else count_occ Nat.eq_dec (map handler_id hs) i.
Proof.
  induction hs as [| x r IH]; cbn [removeHandler map count_occ].
  - now destruct (Nat.eqb i (handler_id h)).
  - destruct (Nat.eqb_spec (handler_id x) (handler_id h)) as [Hx | Hx].
    + destruct (Nat.eq_dec (handler_id x) i) as [Hi | Hi].
      * subst i. rewrite Hx, Nat.eqb_refl. reflexivity.
      * destruct (Nat.eqb_spec i (handler_id h)); [congruence | reflexivity].
    + cbn [map count_occ]. rewrite IH.
      destruct (Nat.eq_dec (handler_id x) i) as [Hi | Hi]; [| reflexivity].
      subst i. destruct (Nat.eqb_spec (handler_id x) (handler_id h)); [contradiction |].
      reflexivity.
Qed.

(** Removing every handler of a list from a list that holds no more of
    each than that list does leaves nothing. *)
Lemma remove_all_handlers (hs current : list Handler) :
  (forall i, count_occ Nat.eq_dec (map handler_id current) i
             <= count_occ Nat.eq_dec (map handler_id hs) i)%nat ->
  fold_left (fun c h => removeHandler h c) hs current = [].
Proof.
  revert current. induction hs as [| h t IH]; intros current Hle; cbn [fold_left].
  - destruct current as [| x r]; [reflexivity |].
    specialize (Hle (handler_id x)). cbn in Hle.
    destruct (Nat.eq_dec (handler_id x) (handler_id x)); [lia | contradiction].
  - apply IH. intros i. rewrite count_occ_removeHandler.
    specialize (Hle i). cbn [map count_occ] in Hle.
    destruct (Nat.eqb_spec i (handler_id h)) as [-> | Hne].
    + destruct (Nat.eq_dec (handler_id h) (handler_id h)); [lia | contradiction].
    + destruct (Nat.eq_dec (handler_id h) i); [congruence | lia].
Qed.

Lemma clear_handlers_nil (hs : list Handler) : clear_handlers hs = [].
Proof. apply remove_all_handlers. intros i. lia. Qed.

(** X6: whatever handlers the root logger had, after [setup_logging] it
    has exactly one: a new stdout handler whose formatter carries the
    project id of this call.  Calling it again replaces that handler. *)
Theorem setup_logging_leaves_one_handler
        (env : Config.environ) (log_level : string)
        (project_id : option string) (l : Loggers) :
  root_handlers (setup_logging env log_level project_id l)
  = [ {| handler_id := next_handler_id l;
         handler_stream := "stdout";
         handler_formatter := Some {| LoggingConfig.project_id := project_id |} |} ] /\
  (forall env' log_level' project_id',
      List.length
        (root_handlers
           (setup_logging env' log_level' project_id'
                          (setup_logging env log_level project_id l))) = 1%nat).
Proof.
  split.
  - unfold setup_logging. cbn [root_handlers]. now rewrite clear_handlers_nil.
  - intros. unfold setup_logging. cbn [root_handlers]. now rewrite !clear_handlers_nil.
Qed.

(** X7: the root level after [setup_logging] is one of the six standard
    numbers.  A level name in [LOG_LEVEL] wins over the argument, in any
    letter case; a value that names no level gives INFO, not the argument. *)
Theorem setup_logging_level
        (env : Config.environ) (log_level : string)
        (project_id : option string) (l : Loggers) :
  let level := root_level (setup_logging env log_level project_id l) in
  In level [NOTSET; DEBUG; INFO; WARNING; ERROR; CRITICAL] /\
  (forall raw,
      Py.dict_get env "LOG_LEVEL" = Some raw ->
      level = match logging_int_attribute (upper raw) with
              | Some n => n
              | None => INFO
              end) /\
  (Py.dict_get env "LOG_LEVEL" = None ->
   level = match logging_int_attribute (upper log_level) with
           | Some n => n
           | None => INFO
           end).
Proof.
  cbv zeta. unfold setup_logging, resolve_level. cbn [root_level].
  unfold Py.dict_get_default. repeat split.
  - set (name := upper _). clearbody name.
    unfold logging_int_attribute. cbn [Py.dict_get].
    repeat match goal with
           | |- context [String.eqb ?a name] => destruct (String.eqb a name)
           end;
      cbn [snd In]; tauto.
  - intros raw ->. now destruct (logging_int_attribute (upper raw)).
  - intros ->. now destruct (logging_int_attribute (upper log_level)).
Qed.

End SetupLoggingFacts.

(* ------------------------------------------------------------------ *)
(** ** More on the trace middleware *)
(* ------------------------------------------------------------------ *)

Section SpanId.

Import TraceMiddleware.

Lemma hex_digit_is_hex (n : N) :
  (n < 16)%N -> Journal.is_hex_digit (hex_digit n) = true.
Proof.
  intros H.
  assert (Hcases : In n [0; 1; 2; 3; 4; 5; 6; 7; 8; 9; 10; 11; 12; 13; 14; 15]%N).
  { cbn [In]. lia. }
  cbn [In] in Hcases.
  repeat (destruct Hcases as [<- | Hcases]; [reflexivity |]). contradiction.
Qed.

Lemma byte_to_N_bound (b : Byte.byte) : (Byte.to_N b < 256)%N.
Proof. destruct b; reflexivity. Qed.

(** X8: the span id of a request is two lower-case hexadecimal digits per
    random byte: 16 of them for the 8 bytes the middleware draws. *)
Theorem hexlify_shape (bs : list Byte.byte) :
  String.length (hexlify bs) = (2 * List.length bs)%nat /\
  Journal.forallb_string Journal.is_hex_digit (hexlify bs) = true.
Proof.
  induction bs as [| b r [IHlen IHhex]]; [split; reflexivity |].
  cbn [hexlify String.length List.length Journal.forallb_string]. split.
  - rewrite IHlen. lia.
  - pose proof (byte_to_N_bound b) as Hb.
    rewrite !hex_digit_is_hex, IHhex; [reflexivity | |].
    + apply N.mod_lt. discriminate.
    + apply N.Div0.div_lt_upper_bound. exact Hb.
Qed.

End SpanId.

Section MoreDispatchFacts.

Import Runtime TraceMiddleware.

Variable fresh : Fresh.
Variable request : Http.Request.
Variable call_next : Http.Request -> M Http.Response.

Let request' := with_state request (uuid4 fresh) (hexlify (urandom fresh)).

(** X10: of a returned response the middleware changes nothing but the
    three headers: status, body and every other header are as the handler
    chain returned them. *)
Theorem dispatch_changes_only_three_headers
        (st s2 : State) (response : Http.Response) :
  call_next request' (entered fresh request st) = (Returns response, s2) ->
  exists stamped,
    fst (dispatch fresh request call_next st) = Returns stamped /\
    Http.status_code stamped = Http.status_code response /\
    Http.body stamped = Http.body response /\
    (forall key,
        ~ In (Py.lower key) Journal.stamped_names ->
        Http.headers_get (Http.headers stamped) key
        = Http.headers_get (Http.headers response) key).
Proof.
  intros H. rewrite dispatch_unfold. fold request'. rewrite H. cbv zeta.
  eexists. split; [reflexivity |]. repeat split.
  intros key Hkey. unfold Http.set_header. cbn [Http.headers].
  unfold Journal.stamped_names in Hkey. cbn [In] in Hkey.
  rewrite !headers_get_set_ne; [reflexivity | | |];
    intros Heq; apply Hkey; rewrite <- Heq; cbv; tauto.
Qed.

(** X11: the middleware neither swallows nor converts: it returns when the
    handler chain returns and raises the very exception the chain raised,
    after logging it at ERROR with its traceback as the last event. *)
Theorem dispatch_is_transparent (st : State) :
  match fst (call_next request' (entered fresh request st)) with
  | Returns _ => exists stamped, fst (dispatch fresh request call_next st) = Returns stamped
  | Raises e =>
      fst (dispatch fresh request call_next st) = Raises e /\
      exists message,
        last (journal (snd (dispatch fresh request call_next st)))
             (Log INFO EmptyString None [])
        = Log ERROR message (Some e) []
  end.
Proof.
  rewrite dispatch_unfold. fold request'.
  destruct (call_next request' (entered fresh request st)) as [[response | e] s2];
    cbn [fst snd journal].
  - eexists. reflexivity.
  - split; [reflexivity |]. eexists. apply last_last.
Qed.


End MoreDispatchFacts.

(* ------------------------------------------------------------------ *)
(** ** More on the signed-URL endpoint *)
(* ------------------------------------------------------------------ *)

Section MoreEndpointFacts.

Import Runtime GcsUrlEndpoint.

Variable cloud : Cloud.

Ltac reduce :=
  cbv [generate_signed_url generate_signed_url_body generate_signed_url_except
       gcs_service_client gcs_service_bucket_name lift to_exn is_HTTPException
       is_ComputeEngineCredentials
       bind try_except emit log log_exception ret raise get_settings
       assign_GCP_PROJECT settings context clock journal fst snd negb andb
       Config.set_GCP_PROJECT Config.LOG_LEVEL Config.PROJECT_NAME
       Config.ENVIRONMENT Config.API_V1_STR Config.DEBUG
       Config.GCS_BUCKET_NAME Config.GCP_PROJECT].

Ltac known x :=
  first [ match goal with H : x = _ |- _ => rewrite H end
        | destruct x eqn:? ].

Ltac step :=
  match goal with
  | |- context [match auth_default ?c ?s with _ => _ end] =>
      first [ match goal with H : auth_default c s = _ |- _ => rewrite H end
            | destruct (auth_default c s) as [[? ?] | [? | ? ?]] eqn:? ]
  | |- context [if valid ?c then _ else _] => known (valid c)
  | |- context [match credentials_refresh ?c ?x with _ => _ end] =>
      first [ match goal with H : credentials_refresh c x = _ |- _ => rewrite H end
            | destruct (credentials_refresh c x) as [? | [? | ? ?]] eqn:? ]
  | |- context [match service_account_email ?c with _ => _ end] =>
      known (service_account_email c)
  | |- context [match class_of ?c with _ => _ end] => known (class_of c)
  | |- context [if Py.truthy ?e then _ else _] => known (Py.truthy e)
  | |- context [if client_initialized ?c then _ else _] =>
      known (client_initialized c)
  | |- context [match blob_exists ?c ?b ?f with _ => _ end] =>
      first [ match goal with H : blob_exists c b f = _ |- _ => rewrite H end
            | destruct (blob_exists c b f) as [[|] | [? | ? ?]] eqn:? ]
  | |- context [match blob_generate_signed_url ?c ?b ?f ?r with _ => _ end] =>
      first [ match goal with
              | H : blob_generate_signed_url c b f r = _ |- _ => rewrite H
              end
            | destruct (blob_generate_signed_url c b f r) as [? | [? | ? ?]] eqn:? ]
  end.

Ltac walk st :=
  destruct st as [[? ? ? ? ? ? ?] ? ? ?];
  cbv [settings Config.GCS_BUCKET_NAME] in *;
  reduce; repeat (step; reduce).

Ltac appended :=
  eexists; split; [rewrite <- ?app_assoc; reflexivity |].

(** X13: on the good path the endpoint returns the URL the storage client
    signed, after one existence check and one signing call for version
    [v4], method [GET], the requested expiry, the service account and token
    of the credentials, and an attachment disposition named after the file. *)
Theorem signed_url_is_issued
        (filename : string) (expires_in : Z) (st : State)
        (acquired usable : Credentials) (project : option string)
        (email url : string) :
  auth_default cloud scopes = Ok (acquired, project) ->
  Journal.goes_on_with cloud acquired usable ->
  class_of usable = ComputeEngineCredentials ->
  service_account_email usable = Some email ->
  Py.truthy email = true ->
  client_initialized cloud = true ->
  blob_exists cloud (Config.GCS_BUCKET_NAME (settings st)) filename = Ok true ->
  let req :=
    {| version := "v4";
       expiration_seconds := expires_in;
       method := "GET";
       sign_service_account_email := email;
       access_token := token usable;
       response_disposition := "attachment; filename=" ++ filename |} in
  blob_generate_signed_url cloud (Config.GCS_BUCKET_NAME (settings st)) filename req
  = Ok url ->
  let r := generate_signed_url cloud filename expires_in st in
  fst r = Returns (Json.JObj [("signed_url", Json.JStr url)]) /\
  exists added,
    journal (snd r) = (journal st ++ added)%list /\
    Journal.signing_requests added = [req] /\
    count is_exists added = 1%nat /\
    Journal.logged_exceptions added = [].
Proof.
  intros Hdefault [[Hvalid ->] | (Hvalid & Hrefresh & Husable)]
         Hclass Hemail Htruthy Hclient Hexists req Hsign; subst req.
  - walk st. all: split; [reflexivity |]; appended; repeat split.
  - walk st. all: split; [reflexivity |]; appended; repeat split.
Qed.

(** X14: credentials that are not compute-engine credentials, or that carry
    no service account email, or an empty one, end the call in the 500 for
    an undeterminable signing identity before the storage client is
    touched. *)
Theorem no_signing_identity_is_a_server_error
        (filename : string) (expires_in : Z) (st : State)
        (acquired usable : Credentials) (project : option string) :
  auth_default cloud scopes = Ok (acquired, project) ->
  Journal.goes_on_with cloud acquired usable ->
  (is_ComputeEngineCredentials usable = false \/
   Py.truthy_opt (service_account_email usable) = false) ->
  let r := generate_signed_url cloud filename expires_in st in
  fst r = Raises (HTTPException 500 detail_no_signing_identity) /\
  exists added,
    journal (snd r) = (journal st ++ added)%list /\
    count is_exists added = 0%nat /\
    count is_signing added = 0%nat.
Proof.
  intros Hdefault [[Hvalid ->] | (Hvalid & Hrefresh & Husable)] Hidentity.
  - unfold is_ComputeEngineCredentials, Py.truthy_opt in Hidentity.
    walk st.
    all: try (destruct Hidentity; discriminate).
    all: split; [reflexivity |]; appended; split; reflexivity.
  - unfold is_ComputeEngineCredentials, Py.truthy_opt in Hidentity.
    walk st.
    all: try (destruct Hidentity; discriminate).
    all: split; [reflexivity |]; appended; split; reflexivity.
Qed.

(** X15: when [google.auth.default] raises, the call ends in a 500 whose
    message depends only on the class of the exception (the authentication
    message for [DefaultCredentialsError], the internal-error message for
    any other); the settings are untouched, nothing else was called, and
    the exception itself went to the log. *)
Theorem credential_discovery_failure
        (filename : string) (expires_in : Z) (st : State) (e : library_error) :
  auth_default cloud scopes = Err e ->
  let r := generate_signed_url cloud filename expires_in st in
  fst r = Raises (HTTPException 500
                    match e with
                    | CredentialsNotFound _ => detail_authentication_failed
                    | LibraryFailure _ _ => detail_internal_error
                    end) /\
  settings (snd r) = settings st /\
  exists added,
    journal (snd r) = (journal st ++ added)%list /\
    filter is_cloud_call added = [AuthDefault scopes] /\
    Journal.logged_exceptions added = [to_exn e].
Proof.
  intros Hdefault. destruct e; walk st.
  all: split; [reflexivity |]; split; [reflexivity |]; appended; split; reflexivity.
Qed.


(** X17: no failure leaves the endpoint unlogged: when the call raises,
    the last event it wrote is an ERROR record with the traceback of the
    exception that was caught, which is either the [HTTPException] that is
    raised again or the library exception it replaces. *)
Theorem failures_are_logged
        (filename : string) (expires_in : Z) (st : State) (e : exn) :
  let r := generate_signed_url cloud filename expires_in st in
  fst r = Raises e ->
  exists added message caught,
    journal (snd r) = (journal st ++ added)%list /\
    last added (Log INFO EmptyString None []) = Log ERROR message (Some caught) [] /\
    (caught = e \/ exists failure, caught = to_exn failure).
Proof.
  walk st.
  all: intros H; try discriminate H; injection H as H; subst e.
  all: eexists _, _, _; split; [rewrite <- ?app_assoc; reflexivity |];
    split; [reflexivity |].
  all: first [ left; reflexivity
             | right; eexists (CredentialsNotFound _); reflexivity
             | right; eexists (LibraryFailure _ _); reflexivity ].
Qed.

(** X18: a request without [filename] is answered with 422 before the
    function body runs, whatever [expires_in] is; the first entry of the
    [detail] list reports the parameter as missing from the query. *)
Theorem filename_is_required (request : Http.Request) (st : State) :
  Http.query_filename request = None ->
  exists response,
    route cloud request st = (Returns response, st) /\
    Http.status_code response = 422 /\
    exists entry rest,
      Json.field (Http.body response) "detail" = Some (Json.JArr (entry :: rest)) /\
      Json.field entry "type" = Some (Json.JStr "missing") /\
      Json.field entry "loc"
      = Some (Json.JArr [Json.JStr "query"; Json.JStr "filename"]).
Proof.
  intros H. unfold route. rewrite H. cbn [validate_filename].
  destruct (validate_expires_in (Http.query_expires_in request));
    eexists; (split; [reflexivity |]); (split; [reflexivity |]);
    eexists _, _; (split; [reflexivity |]); split; reflexivity.
Qed.

(** A storage client that was never built stops the call at the storage
    step. *)
Lemma uninitialized_client_fails
      (filename : string) (expires_in : Z) (st : State)
      (acquired usable : Credentials) (project : option string) (email : string) :
  auth_default cloud scopes = Ok (acquired, project) ->
  Journal.goes_on_with cloud acquired usable ->
  class_of usable = ComputeEngineCredentials ->
  service_account_email usable = Some email ->
  Py.truthy email = true ->
  client_initialized cloud = false ->
  let r := generate_signed_url cloud filename expires_in st in
  fst r = Raises (HTTPException 500 detail_internal_error) /\
  exists added,
    journal (snd r) = (journal st ++ added)%list /\
    filter is_cloud_call added
    = (AuthDefault scopes :: if valid acquired then [] else [CredentialsRefresh])%list /\
    Journal.logged_exceptions added
    = [PyException "RuntimeError" "Google Cloud Storage client is not initialized."].
Proof.
  intros Hdefault [[Hvalid ->] | (Hvalid & Hrefresh & Husable)]
         Hclass Hemail Htruthy Hclient.
  - walk st. all: split; [reflexivity |]; appended; split; reflexivity.
  - walk st. all: split; [reflexivity |]; appended; split; reflexivity.
Qed.

(** X19: what [/echo/] reports does not change when signed-URL requests
    are served in between: the one field they write, [GCP_PROJECT], is not
    part of the report. *)
Theorem echo_is_unaffected_by_signed_url_requests
        (filename : string) (expires_in : Z) (now : string) (st : State) :
  let after := snd (generate_signed_url cloud filename expires_in st) in
  fst (Echo.root now after) = fst (Echo.root now st) /\
  snd (Echo.root now after) = after.
Proof.
  unfold Echo.root.
  walk st; split; reflexivity.
Qed.

End MoreEndpointFacts.

(* ------------------------------------------------------------------ *)
(** ** The whole service on the signed-URL route *)
(* ------------------------------------------------------------------ *)

Section ServiceFacts.

Import Runtime.

Variable cloud : GcsUrlEndpoint.Cloud.

(** Below the trace middleware the route always ends in a response. *)
Lemma route_always_responds (request : Http.Request) (st : State) :
  exists response s2,
    Main.ExceptionMiddleware (GcsUrlEndpoint.route cloud) request st
    = (Returns response, s2) /\
    In (Http.status_code response) Journal.route_statuses.
Proof.
  unfold Main.ExceptionMiddleware, try_except, GcsUrlEndpoint.route.
  destruct (GcsUrlEndpoint.validate_filename (Http.query_filename request))
    as [filename | err];
    destruct (GcsUrlEndpoint.validate_expires_in (Http.query_expires_in request))
    as [expires_in | err'];
    try (eexists _, _; split; [reflexivity | cbv; tauto]).
  unfold bind.
  destruct (GcsUrlEndpoint.generate_signed_url cloud filename expires_in st)
    as [[content | e] s'] eqn:Hrun.
  - eexists _, _; split; [reflexivity | cbv; tauto].
  - destruct (generate_signed_url_failures cloud filename expires_in st e)
      as (status & detail & -> & _ & Hstatus).
    { now rewrite Hrun. }
    eexists _, _; split; [reflexivity |].
    cbn [Http.status_code Http.JSONResponse]. unfold Journal.route_statuses.
    destruct Hstatus as [-> | ->]; cbn [In]; tauto.
Qed.

(** X20: on the signed-URL route the service always answers, whatever the
    collaborators do: with 200, 404, 422 or 500, with the three trace
    headers on the response, and with both context variables back at the
    bindings they had before the request. *)
Theorem signed_url_service_always_answers
        (fresh : TraceMiddleware.Fresh) (request : Http.Request) (st : State) :
  let r := Main.signed_url_service cloud fresh request st in
  exists response,
    fst r = Returns response /\
    In (Http.status_code response) Journal.route_statuses /\
    Http.headers_get (Http.headers response) "X-Trace-ID"
    = Some (TraceMiddleware.uuid4 fresh) /\
    Http.headers_get (Http.headers response) "X-Span-ID"
    = Some (TraceMiddleware.hexlify (TraceMiddleware.urandom fresh)) /\
    (exists elapsed, Http.headers_get (Http.headers response) "X-Process-Time"
                     = Some (TraceMiddleware.format_4f elapsed)) /\
    context (snd r) = context st.
Proof.
  cbv zeta. unfold Main.signed_url_service, Main.app, Main.ServerErrorMiddleware,
    try_except.
  rewrite dispatch_unfold.
  destruct (route_always_responds
              (TraceMiddleware.with_state request (TraceMiddleware.uuid4 fresh)
                 (TraceMiddleware.hexlify (TraceMiddleware.urandom fresh)))
              (TraceMiddleware.entered fresh request st))
    as (response & s2 & -> & Hstatus).
  cbv zeta. cbn [fst snd context].
  pose proof (trace_headers_read_back response) as H. cbv zeta in H.
  edestruct H as (Hp & Ht & Hs & Hcode & _).
  eexists. split; [reflexivity |].
  split; [rewrite Hcode; exact Hstatus |].
  split; [exact Ht |]. split; [exact Hs |].
  split; [eexists; exact Hp |]. now destruct (context st).
Qed.

End ServiceFacts.

(* ------------------------------------------------------------------ *)
(** ** The storage client singleton *)
(* ------------------------------------------------------------------ *)

Section GcsClientFacts.

Import GcsClient.

Lemma again_instance (answers : list bool) (c : Class) :
  _instance c = true -> again answers c = c.
Proof.
  revert c. induction answers as [| a r IH]; intros c H; [reflexivity |].
  unfold again in *. cbn [fold_left]. unfold GCSClient at 2. rewrite H. now apply IH.
Qed.

(** X21: the client is built once, when the class is first instantiated;
    whatever [storage.Client()] would do later, no further call is made, so
    a failure at import is never repaired. *)
Theorem gcs_client_is_built_once (first : bool) (answers : list bool) :
  let c := again answers (GCSClient first initial) in
  client_constructions c = 1%nat /\
  client c = (if first then Some tt else None).
Proof.
  cbv zeta. rewrite again_instance by reflexivity. split; [reflexivity |].
  now destruct first.
Qed.

(** A predicate that only holds of calls to the cloud libraries can be
    evaluated on the cloud calls of a journal alone. *)
Lemma filter_cloud_calls (p : Runtime.event -> bool) (l : list Runtime.event) :
  (forall e, p e = true -> Runtime.is_cloud_call e = true) ->
  filter p l = filter p (filter Runtime.is_cloud_call l).
Proof.
  intros Hp. induction l as [| e l IH]; [reflexivity |].
  cbn [filter]. destruct (p e) eqn:Hpe.
  - rewrite (Hp e Hpe). cbn [filter]. rewrite Hpe. f_equal. apply IH.
  - destruct (Runtime.is_cloud_call e); [cbn [filter]; rewrite Hpe |]; apply IH.
Qed.

(** X22: when [storage.Client()] raised at import, every later request
    that gets as far as the storage step fails with the 500 for an internal
    error, however often [GCSClient()] is called again and whatever the
    constructor would do by then; the bucket is never asked. *)
Theorem storage_client_failure_is_permanent
        (answers : list bool) (cloud : GcsUrlEndpoint.Cloud)
        (filename : string) (expires_in : Z) (st : Runtime.State)
        (acquired usable : GcsUrlEndpoint.Credentials)
        (project : option string) (email : string) :
  let broken := with_client (again answers (GCSClient false initial)) cloud in
  GcsUrlEndpoint.auth_default cloud GcsUrlEndpoint.scopes
  = GcsUrlEndpoint.Ok (acquired, project) ->
  Journal.goes_on_with cloud acquired usable ->
  GcsUrlEndpoint.class_of usable = GcsUrlEndpoint.ComputeEngineCredentials ->
  GcsUrlEndpoint.service_account_email usable = Some email ->
  Py.truthy email = true ->
  let r := GcsUrlEndpoint.generate_signed_url broken filename expires_in st in
  fst r = Runtime.Raises
            (Runtime.HTTPException 500 GcsUrlEndpoint.detail_internal_error) /\
  exists added,
    Runtime.journal (snd r) = (Runtime.journal st ++ added)%list /\
    Runtime.count Runtime.is_exists added = 0%nat /\
    Runtime.count Runtime.is_signing added = 0%nat.
Proof.
  intros broken Hdefault Husable Hclass Hemail Htruthy r.
  destruct (uninitialized_client_fails broken filename expires_in st
              acquired usable project email)
    as (Hfails & added & Hjournal & Hcalls & _); try assumption.
  - unfold broken, with_client. cbn [GcsUrlEndpoint.client_initialized].
    now rewrite again_instance.
  - split; [exact Hfails |]. exists added. split; [exact Hjournal |].
    unfold Runtime.count.
    rewrite (filter_cloud_calls Runtime.is_exists),
            (filter_cloud_calls Runtime.is_signing), Hcalls.
    + destruct (GcsUrlEndpoint.valid acquired); split; reflexivity.
    + intros [] H; try discriminate H; reflexivity.
    + intros [] H; try discriminate H; reflexivity.
Qed.


End GcsClientFacts.

(* ------------------------------------------------------------------ *)
(** ** More on settings resolution *)
(* ------------------------------------------------------------------ *)

Section MoreConfigFacts.

Import Config.

Variable validate_bool : string -> option bool.

(** X23: once [get_setings] has returned, every later call returns that
    same object and changes nothing, whatever has become of the
    environment, the dotenv files or the class attributes since. *)
Theorem get_setings_returns_the_cached_object
        (fs : dotenv_files) (p : Process) (s : Settings) :
  fst (get_setings validate_bool fs p) = Loaded s ->
  forall fs' env' attrs',
    let later :=
      {| os_environ := env';
         class_GCP_PROJECT := attrs';
         _settings_instance := _settings_instance (snd (get_setings validate_bool fs p)) |} in
    get_setings validate_bool fs' later = (Loaded s, later).
Proof.
  intros H fs' env' attrs' later.
  assert (Hinst : _settings_instance (snd (get_setings validate_bool fs p)) = Some s).
  { unfold get_setings in *. destruct (_settings_instance p) as [s0 |] eqn:Hp.
    - cbn [fst snd] in *. congruence.
    - destruct (instantiate validate_bool _ _); cbn [fst snd _settings_instance] in *;
        congruence. }
  unfold get_setings, later. cbn [_settings_instance]. now rewrite Hinst.
Qed.

(** X24: the first call exits exactly when the environment holds a [DEBUG]
    value that is no boolean; nothing is cached then. *)
Theorem get_setings_exits_on_malformed_DEBUG_only
        (fs : dotenv_files) (p : Process) :
  _settings_instance p = None ->
  let env := load_environment fs (os_environ p) in
  let r := get_setings validate_bool fs p in
  (fst r = SysExit "Failed to load critical application settings."
   <-> exists raw, env_field env "DEBUG" = Some raw /\ validate_bool raw = None) /\
  ((exists raw, env_field env "DEBUG" = Some raw /\ validate_bool raw = None) ->
   _settings_instance (snd r) = None).
Proof.
  intros Hnone env r. subst r. unfold get_setings. rewrite Hnone. fold env.
  set (c := select_settings_class (current_environment_name env)).
  destruct (declared_GCP_PROJECT c (select_settings_class_is_a_profile _))
    as [declared Hdeclared].
  unfold instantiate. cbv zeta. rewrite Hdeclared.
  destruct (env_field env "DEBUG") as [raw |] eqn:Hdebug.
  - destruct (validate_bool raw) eqn:Hraw;
      destruct (env_field env "GCP_PROJECT"); cbn [fst snd _settings_instance].
    1, 2: split;
      [ split; [discriminate |]; intros (raw' & [= <-] & Hbad); congruence
      | intros (raw' & [= <-] & Hbad); congruence ].
    all: split; [| reflexivity]; split; [| reflexivity]; intros _; now exists raw.
  - destruct (env_field env "GCP_PROJECT"); cbn [fst snd _settings_instance]; split;
      try (split; [discriminate |]; intros (raw' & Hraw & _); discriminate);
      intros (raw' & Hraw & _); discriminate.
Qed.

(** X25: a recognized environment name, written in any letter case, selects
    the class that declares that name as its [ENVIRONMENT]. *)
Theorem recognized_environment_selects_its_profile (env : environ) (raw : string) :
  Py.dict_get env "ENVIRONMENT" = Some raw ->
  In (Py.lower raw) recognized_profiles ->
  ENVIRONMENT (declared_defaults (select_settings_class (current_environment_name env)))
  = Py.lower raw.
Proof.
  intros Hget Hin. unfold current_environment_name, Py.dict_get_default. rewrite Hget.
  unfold recognized_profiles in Hin. cbn [In] in Hin.
  repeat (destruct Hin as [<- | Hin]; [reflexivity |]). contradiction.
Qed.

(** *** The two dotenv loads *)

Lemma dict_mem_true {V} (d : Py.dict V) (k : string) (v : V) :
  Py.dict_get d k = Some v -> Py.dict_mem d k = true.
Proof. unfold Py.dict_mem. now intros ->. Qed.

(** Without [override] a variable that is set keeps its value. *)
Lemma set_as_environment_variables_keeps
      (values : Py.dict string) (env : environ) (k v : string) :
  Py.dict_get env k = Some v ->
  Py.dict_get (set_as_environment_variables values false env) k = Some v.
Proof.
  revert env. induction values as [| [k0 v0] r IH]; intros env H; [exact H |].
  cbn [set_as_environment_variables]. apply IH.
  destruct (Py.dict_mem env k0) eqn:Hmem; cbn [andb negb]; [exact H |].
  destruct (String.eqb_spec k0 k) as [-> | Hne].
  - rewrite (dict_mem_true _ _ _ H) in Hmem. discriminate.
  - now rewrite dict_get_set_ne.
Qed.

(** With [override] the file decides every variable it names, and leaves
    the others alone. *)
Lemma set_as_environment_variables_overrides
      (values : Py.dict string) (env : environ) (k : string) :
  Py.dict_get (set_as_environment_variables values true env) k
  = match last_value values k with
    | Some v => Some v
    | None => Py.dict_get env k
    end.
Proof.
  revert env. induction values as [| [k0 v0] r IH]; intros env; [reflexivity |].
  cbn [set_as_environment_variables last_value]. rewrite andb_false_r, IH.
  destruct (last_value r k); [reflexivity |].
  destruct (String.eqb_spec k0 k) as [-> | Hne].
  - apply dict_get_set_eq.
  - now apply dict_get_set_ne.
Qed.

(** X26: of the three places a variable can come from, the file
    [.env.<environment>] wins, then the process environment, then [.env]:
    the environment file overrides what is set, and [.env] never does. *)
Theorem dotenv_precedence (fs : dotenv_files) (env : environ) (k : string) :
  let env1 := load_dotenv fs ".env" false env in
  let env_file_path :=
    ".env." ++ Py.lower (Py.dict_get_default env1 "ENVIRONMENT" "local") in
  let loaded := Py.dict_get (load_environment fs env) k in
  (forall specific v,
      fs env_file_path = Some specific -> last_value specific k = Some v ->
      loaded = Some v) /\
  (forall v,
      Py.dict_get env k = Some v ->
      (forall specific, fs env_file_path = Some specific -> last_value specific k = None) ->
      loaded = Some v) /\
  (fs ".env" = None -> fs env_file_path = None -> loaded = Py.dict_get env k).
Proof.
  cbv zeta. unfold load_environment.
  set (env1 := load_dotenv fs ".env" false env).
  set (path := ".env." ++ Py.lower (Py.dict_get_default env1 "ENVIRONMENT" "local")).
  repeat split.
  - intros specific v Hfile Hlast. rewrite Hfile. unfold load_dotenv. rewrite Hfile.
    now rewrite set_as_environment_variables_overrides, Hlast.
  - intros v Hget Hnot.
    assert (H1 : Py.dict_get env1 k = Some v).
    { unfold env1, load_dotenv. destruct (fs ".env"); [| exact Hget].
      now apply set_as_environment_variables_keeps. }
    destruct (fs path) as [specific |] eqn:Hfile; [| exact H1].
    unfold load_dotenv. rewrite Hfile.
    now rewrite set_as_environment_variables_overrides, (Hnot specific eq_refl).
  - intros Hbase Hfile. rewrite Hfile. unfold env1, load_dotenv. now rewrite Hbase.
Qed.

End MoreConfigFacts.

(* ------------------------------------------------------------------ *)
(** ** The configuration manager *)
(* ------------------------------------------------------------------ *)

Section AppConfigFacts.

Import AppConfig.

Variable validate_bool : string -> option bool.
Variable fs : Config.dotenv_files.

Lemma instantiate_LOG_LEVEL (c : Config.settings_class) (env : Config.environ)
      (s : Config.Settings) :
  Config.instantiate validate_bool c env = Some s ->
  Config.LOG_LEVEL s =
    match Config.env_field env "LOG_LEVEL" with
    | Some v => v
    | None => Config.LOG_LEVEL (Config.declared_defaults c)
    end.
Proof.
  intros H. now apply instantiate_inv in H as (dbg & project & _ & _ & _ & _ & ->).
Qed.

(** The first [get_configured_logger] with the project id in the
    environment. *)
Lemma get_configured_logger_runs (st : State) (project : string) :
  _logger st = false ->
  bootstrap_cache st = None ->
  let env := Config.load_environment fs (Config.os_environ (process st)) in
  Config.env_field env "GCP_PROJECT" = Some project ->
  (forall raw, Config.env_field env "DEBUG" = Some raw -> validate_bool raw <> None) ->
  exists st',
    get_configured_logger validate_bool fs st = (Done tt, st') /\
    _logger st' = true /\
    loggers st'
    = LoggingSetup.setup_logging env "INFO" (Some project) (loggers st).
Proof.
  intros Hlogger Hcache env Hproject Hdebug.
  unfold get_configured_logger, get_bootstrap_settings_cached.
  rewrite Hlogger, Hcache.
  unfold Config.get_bootstrap_settings. fold env.
  unfold Config.instantiate. cbv zeta. rewrite Hproject.
  destruct (Config.env_field env "DEBUG") as [raw |] eqn:E.
  - specialize (Hdebug raw eq_refl).
    destruct (validate_bool raw); [| congruence].
    eexists. repeat split.
  - eexists. repeat split.
Qed.

(** X27: the formatter the application logs through gets its project id
    from the [GCP_PROJECT] variable as it stands when logging is set up.
    Without the variable [BootstrapSettings()] raises: the call ends in
    that [ValidationError] and no logger is configured. *)
Theorem configured_logger_project_id (st : State) :
  _logger st = false ->
  bootstrap_cache st = None ->
  let env := Config.load_environment fs (Config.os_environ (process st)) in
  let r := get_configured_logger validate_bool fs st in
  (forall project,
      Config.env_field env "GCP_PROJECT" = Some project ->
      (forall raw, Config.env_field env "DEBUG" = Some raw ->
                   validate_bool raw <> None) ->
      fst r = Done tt /\
      _logger (snd r) = true /\
      exists handler,
        LoggingSetup.root_handlers (loggers (snd r)) = [handler] /\
        LoggingSetup.handler_formatter handler
        = Some {| LoggingConfig.project_id := Some project |}) /\
  (Config.env_field env "GCP_PROJECT" = None ->
   fst r = ValidationError /\
   _logger (snd r) = false /\
   loggers (snd r) = loggers st).
Proof.
  intros Hlogger Hcache env r. split.
  - intros project Hproject Hdebug.
    destruct (get_configured_logger_runs st project Hlogger Hcache Hproject Hdebug)
      as (st' & Hrun & Hdone & Hloggers).
    subst r. rewrite Hrun. cbn [fst snd]. split; [reflexivity |].
    split; [exact Hdone |]. rewrite Hloggers.
    unfold LoggingSetup.setup_logging. cbn [LoggingSetup.root_handlers].
    rewrite clear_handlers_nil. cbn [LoggingSetup.addHandler existsb app].
    eexists. split; reflexivity.
  - intros Habsent. subst r.
    unfold get_configured_logger, get_bootstrap_settings_cached.
    rewrite Hlogger, Hcache.
    unfold Config.get_bootstrap_settings. fold env.
    unfold Config.instantiate. cbv zeta. rewrite Habsent.
    cbn [Config.declared_defaults Config.BaseAppSettings_defaults Config.GCP_PROJECT].
    destruct (match Config.env_field env "DEBUG" with
              | Some raw => validate_bool raw
              | None => _
              end); cbn [fst snd _logger loggers]; repeat split; assumption.
Qed.

(** X28: the level of the root logger comes from the [LOG_LEVEL] variable
    alone.  With the project id set and [LOG_LEVEL] unset it is INFO
    whatever the profile says: under the local profile, whose [LOG_LEVEL]
    is [DEBUG], records of level DEBUG are still dropped. *)
Theorem configured_logger_ignores_profile_level
        (st : State) (s : Config.Settings) (project : string) :
  _logger st = false ->
  bootstrap_cache st = None ->
  let env := Config.load_environment fs (Config.os_environ (process st)) in
  let r := get_configured_logger validate_bool fs st in
  Config.env_field env "GCP_PROJECT" = Some project ->
  (forall k v, In (k, v) env -> Py.lower k <> "log_level") ->
  Config.instantiate validate_bool Config.LocalSettings env = Some s ->
  fst r = Done tt /\
  Config.LOG_LEVEL s = "DEBUG" /\
  LoggingSetup.root_level (loggers (snd r)) = LoggingSetup.INFO /\
  LoggingSetup.isEnabledFor (loggers (snd r)) LoggingSetup.DEBUG = false.
Proof.
  intros Hlogger Hcache env r Hproject Habsent Hinst.
  assert (Hdebug : forall raw, Config.env_field env "DEBUG" = Some raw ->
                               validate_bool raw <> None).
  { intros raw Hraw.
    apply instantiate_inv in Hinst as (dbg & _ & Hdbg & _).
    rewrite Hraw in Hdbg. congruence. }
  destruct (get_configured_logger_runs st project Hlogger Hcache Hproject Hdebug)
    as (st' & Hrun & _ & Hloggers).
  fold env in Hloggers.
  subst r. rewrite Hrun. cbn [fst snd]. split; [reflexivity |].
  assert (Hget : Py.dict_get env "LOG_LEVEL" = None).
  { destruct (Py.dict_get env "LOG_LEVEL") as [v |] eqn:Hv; [| reflexivity].
    apply dict_get_In in Hv. exfalso. now apply (Habsent _ _ Hv). }
  apply (env_field_None env "LOG_LEVEL") in Habsent.
  apply instantiate_LOG_LEVEL in Hinst. rewrite Habsent in Hinst.
  split; [exact Hinst |].
  assert (Hlevel : LoggingSetup.root_level (loggers st') = LoggingSetup.INFO).
  { rewrite Hloggers. unfold LoggingSetup.setup_logging, LoggingSetup.resolve_level,
      Py.dict_get_default.
    cbn [LoggingSetup.root_level]. now rewrite Hget. }
  split; [exact Hlevel |].
  unfold LoggingSetup.isEnabledFor. now rewrite Hlevel.
Qed.

End AppConfigFacts.

(* ------------------------------------------------------------------ *)
(** ** The properties above on concrete runs *)
(* ------------------------------------------------------------------ *)

Lemma format_trace_field_witness :
  Json.field Cases.traced_entry LogEntry.trace_key
  = Some (Json.JStr ("projects/" ++ "demo-project" ++ "/traces/"
                     ++ "0f8fad5b-d9cb-469f-a165-70867728950e")).
Proof.
  apply (proj1 (format_trace_field
                  Scenario.formatter Cases.traced_context Scenario.one_hour_east
                  Scenario.epoch_record Cases.traced_entry eq_refl));
    reflexivity.
Defined.

Lemma format_span_field_witness :
  Json.field Cases.traced_entry LogEntry.span_key
  = Some (Json.JStr "001fabff1002039a").
Proof.
  apply (proj1 (format_span_field
                  Scenario.formatter Cases.traced_context Scenario.one_hour_east
                  Scenario.epoch_record Cases.traced_entry eq_refl));
    reflexivity.
Defined.

Lemma format_severity_witness :
  exists severity,
    Json.field Cases.traced_entry "severity" = Some (Json.JStr severity) /\
    In severity (LogEntry.standard_levelnames ++ ["DEFAULT"])%list /\
    (In "INFO" LogEntry.standard_levelnames -> severity = "INFO") /\
    (~ In "INFO" LogEntry.standard_levelnames -> severity = "DEFAULT").
Proof.
  apply (format_severity
           Scenario.formatter Cases.traced_context Scenario.one_hour_east
           Scenario.epoch_record Cases.traced_entry eq_refl).
Defined.

Lemma format_keys_witness :
  Json.keys Cases.traced_entry
  = (LogEntry.base_keys ++ [LogEntry.trace_key; LogEntry.span_key])%list.
Proof.
  apply (proj1 (format_keys
                  Scenario.formatter Cases.traced_context Scenario.one_hour_east
                  Scenario.epoch_record Cases.traced_entry eq_refl)).
Defined.

Lemma timestamp_layout_witness :
  Journal.matches Journal.iso_utc_milliseconds "1970-01-01T01:00:00.000Z" = true.
Proof.
  apply (timestamp_layout Scenario.one_hour_east Scenario.epoch_record
                          "1970-01-01T01:00:00.000Z" eq_refl).
Defined.

Lemma configured_logger_project_id_witness :
  (fst (AppConfig.get_configured_logger Config.pydantic_bool Config.no_dotenv
                                        Cases.cold) = AppConfig.Done tt /\
   AppConfig._logger Cases.configured = true /\
   exists handler,
     LoggingSetup.root_handlers (AppConfig.loggers Cases.configured) = [handler] /\
     LoggingSetup.handler_formatter handler
     = Some {| LoggingConfig.project_id := Some "demo-project" |}) /\
  (fst (AppConfig.get_configured_logger Config.pydantic_bool Config.no_dotenv
                                        Cases.bare) = AppConfig.ValidationError /\
   AppConfig._logger
     (snd (AppConfig.get_configured_logger Config.pydantic_bool Config.no_dotenv
                                           Cases.bare)) = false /\
   AppConfig.loggers
     (snd (AppConfig.get_configured_logger Config.pydantic_bool Config.no_dotenv
                                           Cases.bare))
   = LoggingSetup.unconfigured).
Proof.
  split.
  - apply (proj1 (configured_logger_project_id
                    Config.pydantic_bool Config.no_dotenv Cases.cold
                    eq_refl eq_refl)
                 "demo-project" eq_refl).
    intros raw H. discriminate H.
  - apply (proj2 (configured_logger_project_id
                    Config.pydantic_bool Config.no_dotenv Cases.bare
                    eq_refl eq_refl)
                 eq_refl).
Defined.

Lemma configured_logger_ignores_profile_level_witness :
  fst (AppConfig.get_configured_logger Config.pydantic_bool Config.no_dotenv
                                       Cases.cold) = AppConfig.Done tt /\
  Config.LOG_LEVEL
    (Config.set_GCP_PROJECT (Config.declared_defaults Config.LocalSettings)
                            (Some "demo-project")) = "DEBUG" /\
  LoggingSetup.root_level (AppConfig.loggers Cases.configured) = LoggingSetup.INFO /\
  LoggingSetup.isEnabledFor (AppConfig.loggers Cases.configured) LoggingSetup.DEBUG
  = false.
Proof.
  apply (configured_logger_ignores_profile_level
           Config.pydantic_bool Config.no_dotenv Cases.cold
           (Config.set_GCP_PROJECT (Config.declared_defaults Config.LocalSettings)
                                   (Some "demo-project"))
           "demo-project" eq_refl eq_refl eq_refl).
  - intros k v [[= <- <-] | []]. vm_compute. discriminate.
  - reflexivity.
Defined.

Lemma dispatch_resets_context_on_return_witness :
  Runtime.context
    (snd (TraceMiddleware.dispatch Scenario.fresh
            (Scenario.get_url (Some "report.pdf") None)
            Cases.ok_endpoint Scenario.idle))
  = Runtime.context Scenario.idle.
Proof.
  apply (dispatch_resets_context_on_return
           Scenario.fresh (Scenario.get_url (Some "report.pdf") None)
           Cases.ok_endpoint Scenario.idle
           (TraceMiddleware.entered Scenario.fresh
              (Scenario.get_url (Some "report.pdf") None) Scenario.idle)
           (Http.JSONResponse 200 (Json.JObj []))).
  reflexivity.
Defined.

Lemma dispatch_changes_only_three_headers_witness :
  exists stamped,
    fst (TraceMiddleware.dispatch Scenario.fresh
           (Scenario.get_url (Some "report.pdf") None)
           Cases.ok_endpoint Scenario.idle) = Runtime.Returns stamped /\
    Http.status_code stamped = 200 /\
    Http.body stamped = Json.JObj [] /\
    (forall key,
        ~ In (Py.lower key) Journal.stamped_names ->
        Http.headers_get (Http.headers stamped) key
        = Http.headers_get [("content-type", "application/json")] key).
Proof.
  apply (dispatch_changes_only_three_headers
           Scenario.fresh (Scenario.get_url (Some "report.pdf") None)
           Cases.ok_endpoint Scenario.idle
           (TraceMiddleware.entered Scenario.fresh
              (Scenario.get_url (Some "report.pdf") None) Scenario.idle)
           (Http.JSONResponse 200 (Json.JObj []))).
  reflexivity.
Defined.


Lemma signed_url_is_issued_witness :
  let r := GcsUrlEndpoint.generate_signed_url Scenario.healthy_cloud "report.pdf" 300
                                              Scenario.idle in
  fst r
  = Runtime.Returns
      (Json.JObj
         [("signed_url",
           Json.JStr "https://storage.googleapis.com/abacus-claims/report.pdf?X-Goog-Signature=00")]) /\
  exists added,
    Runtime.journal (snd r) = (Runtime.journal Scenario.idle ++ added)%list /\
    Journal.signing_requests added = [Cases.report_request] /\
    Runtime.count Runtime.is_exists added = 1%nat /\
    Journal.logged_exceptions added = [].
Proof.
  apply (signed_url_is_issued
           Scenario.healthy_cloud "report.pdf" 300 Scenario.idle
           Scenario.compute_credentials Scenario.compute_credentials
           (Some "demo-project") "signer@demo.iam.gserviceaccount.com"
           "https://storage.googleapis.com/abacus-claims/report.pdf?X-Goog-Signature=00"
           eq_refl (or_introl (conj eq_refl eq_refl))
           eq_refl eq_refl eq_refl eq_refl eq_refl eq_refl).
Defined.

Lemma no_signing_identity_is_a_server_error_witness :
  fst (GcsUrlEndpoint.generate_signed_url Cases.user_cloud "report.pdf" 300
                                          Scenario.idle)
  = Runtime.Raises
      (Runtime.HTTPException 500 GcsUrlEndpoint.detail_no_signing_identity).
Proof.
  apply (no_signing_identity_is_a_server_error
           Cases.user_cloud "report.pdf" 300 Scenario.idle
           Cases.user_credentials Cases.user_credentials None
           eq_refl (or_introl (conj eq_refl eq_refl)) (or_introl eq_refl)).
Defined.

Lemma credential_discovery_failure_witness :
  let r := GcsUrlEndpoint.generate_signed_url Cases.bare_cloud "report.pdf" 300
                                              Scenario.idle in
  fst r = Runtime.Raises
            (Runtime.HTTPException 500 GcsUrlEndpoint.detail_authentication_failed) /\
  Runtime.settings (snd r) = Runtime.settings Scenario.idle /\
  exists added,
    Runtime.journal (snd r) = (Runtime.journal Scenario.idle ++ added)%list /\
    filter Runtime.is_cloud_call added = [Runtime.AuthDefault GcsUrlEndpoint.scopes] /\
    Journal.logged_exceptions added = [GcsUrlEndpoint.to_exn Cases.no_credentials].
Proof.
  apply (credential_discovery_failure
           Cases.bare_cloud "report.pdf" 300 Scenario.idle Cases.no_credentials
           eq_refl).
Defined.

Lemma failures_are_logged_witness :
  let r := GcsUrlEndpoint.generate_signed_url Scenario.healthy_cloud "missing.txt" 300
                                              Scenario.idle in
  exists added message caught,
    Runtime.journal (snd r) = (Runtime.journal Scenario.idle ++ added)%list /\
    last added (Runtime.Log Runtime.INFO EmptyString None [])
    = Runtime.Log Runtime.ERROR message (Some caught) [] /\
    (caught = Runtime.HTTPException 404 GcsUrlEndpoint.detail_not_found \/
     exists failure, caught = GcsUrlEndpoint.to_exn failure).
Proof.
  apply (failures_are_logged
           Scenario.healthy_cloud "missing.txt" 300 Scenario.idle
           (Runtime.HTTPException 404 GcsUrlEndpoint.detail_not_found) eq_refl).
Defined.

Lemma filename_is_required_witness :
  exists response,
    GcsUrlEndpoint.route Scenario.healthy_cloud (Scenario.get_url None (Some 300))
                         Scenario.idle
    = (Runtime.Returns response, Scenario.idle) /\
    Http.status_code response = 422 /\
    exists entry rest,
      Json.field (Http.body response) "detail" = Some (Json.JArr (entry :: rest)) /\
      Json.field entry "type" = Some (Json.JStr "missing") /\
      Json.field entry "loc"
      = Some (Json.JArr [Json.JStr "query"; Json.JStr "filename"]).
Proof.
  apply (filename_is_required
           Scenario.healthy_cloud (Scenario.get_url None (Some 300)) Scenario.idle
           eq_refl).
Defined.

Lemma storage_client_failure_is_permanent_witness :
  fst (GcsUrlEndpoint.generate_signed_url
         (GcsClient.with_client
            (GcsClient.again [true; true]
                             (GcsClient.GCSClient false GcsClient.initial))
            Scenario.healthy_cloud)
         "report.pdf" 300 Scenario.idle)
  = Runtime.Raises
      (Runtime.HTTPException 500 GcsUrlEndpoint.detail_internal_error).
Proof.
  apply (storage_client_failure_is_permanent
           [true; true] Scenario.healthy_cloud "report.pdf" 300 Scenario.idle
           Scenario.compute_credentials Scenario.compute_credentials
           (Some "demo-project") "signer@demo.iam.gserviceaccount.com"
           eq_refl (or_introl (conj eq_refl eq_refl)) eq_refl eq_refl eq_refl).
Defined.

Lemma get_setings_returns_the_cached_object_witness :
  let first := Config.get_setings Config.pydantic_bool Config.no_dotenv
                                  (Config.fresh_process []) in
  let later :=
    {| Config.os_environ := [("ENVIRONMENT", "production"); ("GCP_PROJECT", "other")];
       Config.class_GCP_PROJECT := Config.class_GCP_PROJECT (snd first);
       Config._settings_instance := Config._settings_instance (snd first) |} in
  Config.get_setings Config.pydantic_bool Config.no_dotenv later
  = (Config.Loaded (Config.declared_defaults Config.LocalSettings), later).
Proof.
  apply (get_setings_returns_the_cached_object
           Config.pydantic_bool Config.no_dotenv (Config.fresh_process [])
           (Config.declared_defaults Config.LocalSettings) eq_refl).
Defined.

Lemma get_setings_exits_on_malformed_DEBUG_only_witness :
  fst (Config.get_setings Config.pydantic_bool Config.no_dotenv
                          (Config.fresh_process [("DEBUG", "maybe")]))
  = Config.SysExit "Failed to load critical application settings.".
Proof.
  apply (proj1 (get_setings_exits_on_malformed_DEBUG_only
                  Config.pydantic_bool Config.no_dotenv
                  (Config.fresh_process [("DEBUG", "maybe")]) eq_refl)).
  exists "maybe". split; reflexivity.
Defined.

Lemma recognized_environment_selects_its_profile_witness :
  Config.ENVIRONMENT
    (Config.declared_defaults
       (Config.select_settings_class
          (Config.current_environment_name [("ENVIRONMENT", "PRODUCTION")])))
  = "production".
Proof.
  apply (recognized_environment_selects_its_profile
           [("ENVIRONMENT", "PRODUCTION")] "PRODUCTION" eq_refl).
  vm_compute. tauto.
Defined.
